(** * PASCAL-VOC annotation flattening and the dataset accessor

    A shallow embedding of [utils/pascal/pascal_utils.py]:
    - [convert_annotations_to_df]: one row per [object] element of every
      annotation document, plus the label column computed by the module-level
      [LabelEncoder];
    - [clamp_bbox_coordinates]: coordinate-wise clamp into the unit interval;
    - [PascalDataset]: [__init__], [__len__] and [__getitem__].

    Python exceptions are values of [exn] carried by the [result] monad.
    Floating-point numbers are [spec_float] (IEEE 754 values without NaN
    payload) compared by the real number they denote; integers of the data
    frame are [Z], with the 64-bit wrap-around of numpy written out where the
    source computes on them. *)

From Stdlib Require Import ZArith Lia Bool Ascii String.
From Stdlib Require Import Floats.SpecFloat.
From stdpp Require Import base option list strings gmap sorting.

Set Warnings "-register-all,-clear-no-such-hyp".
Local Open Scope Z_scope.

(** ** Exceptions and the result monad *)

Inductive exn : Type :=
  | AttributeError   (* attribute access on [None] *)
  | TypeError        (* [int(None)], [None[0]], [os.path.join(dir, None)] *)
  | ValueError       (* [int] of a non-numeral, unseen label, bad unpacking *)
  | IndexError       (* child or image index out of range *)
  | KeyError         (* missing data-frame column *)
  | NotFittedError   (* [encoder.transform] before any [fit] *)
  | Cv2Error         (* [cv2.cvtColor] on an image that failed to load *)
  | TransformError.  (* whatever the caller-supplied transform raises *)

Inductive result (A : Type) : Type :=
  | Ok (a : A)
  | Raise (e : exn).
Arguments Ok {A} a.
Arguments Raise {A} e.

#[global] Instance result_ret : MRet result := fun A a => Ok a.
#[global] Instance result_bind : MBind result := fun A B k r =>
  match r with
  | Ok a => k a
  | Raise e => Raise e
  end.

#[global] Instance result_fmap : FMap result := fun A B f r =>
  match r with
  | Ok a => Ok (f a)
  | Raise e => Raise e
  end.

Definition from_option {A : Type} (e : exn) (o : option A) : result A :=
  match o with
  | Some a => Ok a
  | None => Raise e
  end.

(** ** Python floats *)

Module PyFloat.

Definition float : Type := spec_float.

(** The value of a non-NaN float on the extended real line; a finite value
    is [m * 2 ^ e]. *)
Inductive xreal : Type :=
  | XNegInf
  | XFin (m e : Z)
  | XPosInf.

Definition to_xreal (x : float) : option xreal :=
  match x with
  | S754_nan => None
  | S754_infinity true => Some XNegInf
  | S754_infinity false => Some XPosInf
  | S754_zero _ => Some (XFin 0 0)
  | S754_finite s m e => Some (XFin (if s then Z.neg m else Z.pos m) e)
  end.

Definition cmp_fin (m1 e1 m2 e2 : Z) : comparison :=
  let k := Z.min e1 e2 in
  (m1 * 2 ^ (e1 - k)) ?= (m2 * 2 ^ (e2 - k)).

Definition xcompare (a b : xreal) : comparison :=
  match a, b with
  | XNegInf, XNegInf => Eq
  | XNegInf, _ => Lt
  | _, XNegInf => Gt
  | XPosInf, XPosInf => Eq
  | XPosInf, _ => Gt
  | _, XPosInf => Lt
  | XFin m1 e1, XFin m2 e2 => cmp_fin m1 e1 m2 e2
  end.

(** IEEE comparison: unordered ([None]) as soon as one side is NaN. *)
Definition compare (x y : float) : option comparison :=
  match to_xreal x, to_xreal y with
  | Some a, Some b => Some (xcompare a b)
  | _, _ => None
  end.

Definition ltb (x y : float) : bool :=
  match compare x y with Some Lt => true | _ => false end.
Definition gtb (x y : float) : bool :=
  match compare x y with Some Gt => true | _ => false end.
Definition leb (x y : float) : bool :=
  match compare x y with Some (Lt | Eq) => true | _ => false end.

(** The literals [0.0] and [1.0] in binary64. *)
Definition zero : float := S754_zero false.
Definition one : float := S754_finite false 4503599627370496 (-52).

(** The builtins [min(a, b)] and [max(a, b)]: the first argument is kept
    unless the second compares strictly below (above) it. *)
Definition py_min (a b : float) : float := if ltb b a then b else a.
Definition py_max (a b : float) : float := if gtb b a then b else a.

(** Single precision values are carried as the binary64 value they denote. *)
Definition widen (r : float) : float :=
  match r with
  | S754_finite s m e => binary_round 53 1024 s m e
  | _ => r
  end.

(** [torch.tensor(x, dtype=torch.float32)] on a float. *)
Definition f32_of_float (x : float) : float :=
  match x with
  | S754_finite s m e => widen (binary_round 24 128 s m e)
  | _ => x
  end.

(** [torch.as_tensor(z, dtype=torch.float32)] on an integer. *)
Definition f32_of_int (z : Z) : float :=
  widen (binary_normalize 24 128 z 0 false).

End PyFloat.

(** ** Numbers that can be tested against the unit interval

    [is_bbox_valid] is applied to rows of the integer data frame before the
    transform and to float boxes after it. *)

Class Unit01 (A : Type) : Type := in_unit : A -> bool.

(** [0 <= x <= 1] on integers. *)
#[global] Instance Z_unit01 : Unit01 Z := fun x => (0 <=? x) && (x <=? 1).

(** [0 <= x <= 1] on floats. *)
#[global] Instance float_unit01 : Unit01 PyFloat.float :=
  fun x => PyFloat.leb PyFloat.zero x && PyFloat.leb x PyFloat.one.

(** ** [clamp_bbox_coordinates] *)

(** [max(0.0, min(v, 1.0))] *)
Definition clamp01 (v : PyFloat.float) : PyFloat.float :=
  PyFloat.py_max PyFloat.zero (PyFloat.py_min v PyFloat.one).

(** One iteration of the loop body. A box is a Python sequence; unpacking a
    sequence that has neither four nor five elements raises [ValueError]. *)
Definition clamp_bbox (bbox : list PyFloat.float) : result (list PyFloat.float) :=
  if (length bbox =? 4)%nat then
    match bbox with
    | [x_min; y_min; x_max; y_max] =>
        Ok [clamp01 x_min; clamp01 y_min; clamp01 x_max; clamp01 y_max]
    | _ => Raise ValueError
    end
  else
    match bbox with
    | [x_min; y_min; x_max; y_max; class_id] =>
        Ok [clamp01 x_min; clamp01 y_min; clamp01 x_max; clamp01 y_max; class_id]
    | _ => Raise ValueError
    end.

Definition clamp_bbox_coordinates (bboxes : list (list PyFloat.float))
  : result (list (list PyFloat.float)) :=
  mapM clamp_bbox bboxes.

(** ** The builtin [int] on element text (ASCII numerals)

    Surrounding whitespace is stripped, one sign is allowed, and digits may be
    grouped by single underscores. *)

Definition is_space (c : ascii) : bool :=
  let n := Z.of_N (N_of_ascii c) in
  ((9 <=? n) && (n <=? 13)) || ((28 <=? n) && (n <=? 32)).

Definition digit_of (c : ascii) : option Z :=
  let n := Z.of_N (N_of_ascii c) in
  if (48 <=? n) && (n <=? 57) then Some (n - 48) else None.

Fixpoint lstrip (s : string) : string :=
  match s with
  | String c s' => if is_space c then lstrip s' else s
  | EmptyString => s
  end.

Fixpoint all_space (s : string) : bool :=
  match s with
  | String c s' => is_space c && all_space s'
  | EmptyString => true
  end.

(** [after_digit] tells whether the previous character was a digit, which is
    where an underscore, trailing whitespace or the end may follow. *)
Fixpoint digits (acc : Z) (after_digit : bool) (s : string) : option Z :=
  match s with
  | EmptyString => if after_digit then Some acc else None
  | String c s' =>
      match digit_of c with
      | Some d => digits (acc * 10 + d) true s'
      | None =>
          if negb after_digit then None
          else if Ascii.eqb c "_" then digits acc false s'
          else if is_space c && all_space s' then Some acc
          else None
      end
  end.

Definition py_int (text : option string) : result Z :=
  match text with
  | None => Raise TypeError
  | Some s =>
      from_option ValueError
        match lstrip s with
        | String "-" s' => Z.opp <$> digits 0 false s'
        | String "+" s' => digits 0 false s'
        | s' => digits 0 false s'
        end
  end.

(** ** [os.path.join] of two components (POSIX) *)

Fixpoint ends_with_slash (s : string) : bool :=
  match s with
  | EmptyString => false
  | String c EmptyString => Ascii.eqb c "/"
  | String _ s' => ends_with_slash s'
  end.

Definition path_join (a b : string) : string :=
  if String.prefix "/" b then b
  else if String.eqb a "" || ends_with_slash a then a +:+ b
  else a +:+ "/" +:+ b.

(** ** ElementTree elements *)

Inductive Element : Type :=
  | Elem (tag : string) (text : option string) (children : list Element).

Definition el_tag (e : Element) : string := let 'Elem t _ _ := e in t.
Definition el_text (e : Element) : option string := let 'Elem _ t _ := e in t.
Definition el_children (e : Element) : list Element := let 'Elem _ _ c := e in c.

(** [e.findall(tag)]: the direct children carrying [tag], in document order. *)
Definition findall (tag : string) (e : Element) : list Element :=
  filter (fun c => el_tag c = tag) (el_children e).

(** [e.find(tag)]: the first such child, or [None]. *)
Definition find (tag : string) (e : Element) : option Element :=
  head (findall tag e).

(** [o.find(tag)] and [o.text] where [o] may be [None]. *)
Definition find_of (tag : string) (o : option Element) : result (option Element) :=
  e ← from_option AttributeError o; Ok (find tag e).

Definition text_of (o : option Element) : result (option string) :=
  e ← from_option AttributeError o; Ok (el_text e).

(** [int(o.find(tag).text)] *)
Definition int_field (tag : string) (o : option Element) : result Z :=
  c ← find_of tag o; t ← text_of c; py_int t.

(** [int(root.find("size")[i].text)]: the [i]-th child, whatever its tag. *)
Definition size_child (root : Element) (i : nat) : result Z :=
  size ← from_option TypeError (find "size" root);
  c ← from_option IndexError (el_children size !! i);
  py_int (el_text c).

(** ** The flattened table *)

(** The tuple appended to [xml_list]. *)
Record xml_value : Type := XmlValue {
  v_filename : option string;
  v_width : Z;
  v_height : Z;
  v_class : option string;
  v_xmin : Z;
  v_ymin : Z;
  v_xmax : Z;
  v_ymax : Z
}.

(** One row of the data frame without its label. *)
Record Row : Type := MkRow {
  filename : string;
  width : Z;
  height : Z;
  class : option string;
  xmin : Z;
  ymin : Z;
  xmax : Z;
  ymax : Z
}.

(** The data frame: the eight fixed columns row by row, and the [labels]
    column when it exists. *)
Record DataFrame : Type := MkDataFrame {
  df_rows : list Row;
  df_labels : option (list Z)
}.

(** Every column of a data frame has one entry per row. *)
Definition df_wf (df : DataFrame) : Prop :=
  forall ls, df_labels df = Some ls -> length ls = length (df_rows df).

(** The body of the inner loop, for one [object] element of [root]. *)
Definition member_value (root member : Element) : result xml_value :=
  let bbx := find "bndbox" member in
  xmin ← int_field "xmin" bbx;
  ymin ← int_field "ymin" bbx;
  xmax ← int_field "xmax" bbx;
  ymax ← int_field "ymax" bbx;
  label ← text_of (find "name" member);
  fname ← text_of (find "filename" root);
  w ← size_child root 0;
  h ← size_child root 1;
  Ok (XmlValue fname w h label xmin ymin xmax ymax).

(** The values contributed by one annotation document. *)
Definition document_values (root : Element) : result (list xml_value) :=
  mapM (member_value root) (findall "object" root).

(** [xml_df["filename"] = [os.path.join(image_dir, ...) ...]] for one row. *)
Definition join_row (image_dir : string) (v : xml_value) : result Row :=
  f ← from_option TypeError (v_filename v);
  Ok (MkRow (path_join image_dir f) (v_width v) (v_height v) (v_class v)
            (v_xmin v) (v_ymin v) (v_xmax v) (v_ymax v)).

(** ** The label encoder

    Class names are the [text] of [name] elements, hence possibly [None].
    [classes_] is the sorted list of distinct strings, with the missing value
    last. *)

Definition class_name : Type := option string.

Definition class_ltb (a b : class_name) : bool :=
  match a, b with
  | Some x, Some y => String.ltb x y
  | Some _, None => true
  | None, _ => false
  end.

Fixpoint insert_class (c : class_name) (cs : list class_name) : list class_name :=
  match cs with
  | [] => [c]
  | d :: cs' =>
      if decide (c = d) then cs
      else if class_ltb c d then c :: cs
      else d :: insert_class c cs'
  end.

Definition sorted_unique (ys : list class_name) : list class_name :=
  foldr insert_class [] ys.

Fixpoint index_of (cs : list class_name) (c : class_name) : option nat :=
  match cs with
  | [] => None
  | d :: cs' => if decide (c = d) then Some 0%nat else S <$> index_of cs' c
  end.

(** The state of the module-level [encoder]: [None] until fitted. *)
Definition LabelEncoder : Type := option (list class_name).

(** Lookup of every value in [classes_]; an unseen one raises [ValueError]. *)
Definition encode (classes : list class_name) (ys : list class_name) : result (list Z) :=
  mapM (fun y => from_option ValueError (Z.of_nat <$> index_of classes y)) ys.

Definition fit_transform (ys : list class_name) : result (list Z * LabelEncoder) :=
  let classes := sorted_unique ys in
  codes ← encode classes ys;
  Ok (codes, Some classes).

Definition transform (encoder : LabelEncoder) (ys : list class_name) : result (list Z) :=
  classes ← from_option NotFittedError encoder;
  encode classes ys.

(** ** [convert_annotations_to_df]
*)

(** The rows of [xml_df] once the [filename] column has been joined with
    [image_dir], before any label is computed. *)
Definition xml_rows (files : list Element) (image_dir : string) : result (list Row) :=
  xml_list ← mapM document_values files;
  mapM (join_row image_dir) (concat xml_list).

(**

    [files] are the parsed roots of the documents matched by the glob, in
    enumeration order; [encoder] is the state of the module-level encoder
    before the call, returned updated next to the table. *)
Definition convert_annotations_to_df
    (files : list Element) (image_dir image_set : string) (encoder : LabelEncoder)
  : result (DataFrame * LabelEncoder) :=
  rows ← xml_rows files image_dir;
  if decide (image_set = "train") then
    '(codes, encoder') ← fit_transform (class <$> rows);
    Ok (MkDataFrame rows (Some ((fun c => c + 1) <$> codes)), encoder')
  else if decide (image_set = "val" \/ image_set = "test") then
    codes ← transform encoder (class <$> rows);
    Ok (MkDataFrame rows (Some ((fun c => c + 1) <$> codes)), encoder)
  else
    Ok (MkDataFrame rows None, encoder).

(** ** [PascalDataset] *)

(** What [cv2] does for the accessor: [imread] yields [None] for a missing or
    unreadable file, on which [cvtColor] raises. *)
Class Cv2 : Type := {
  image : Type;
  imread : string -> option image;
  COLOR_BGR2RGB : image -> image
}.

(** A row of the integer box array, and a box returned by the transform. *)
Abbreviation ibox := (Z * Z * Z * Z)%type.
Abbreviation fbox :=
  (PyFloat.float * PyFloat.float * PyFloat.float * PyFloat.float)%type.

(** The nested function [is_bbox_valid] of [__getitem__]. *)
Definition is_bbox_valid {A : Type} `{Unit01 A} (bbox : A * A * A * A) : bool :=
  let '(x_min, y_min, x_max, y_max) := bbox in
  in_unit x_min && in_unit y_min && in_unit x_max && in_unit y_max.

(** The dictionary returned by the transform. *)
Record Transformed `{Cv2} : Type := MkTransformed {
  tr_image : image;
  tr_bboxes : list fbox;
  tr_class_labels : list Z
}.
Arguments MkTransformed {_} _ _ _.

(** [self.tfms(image=..., bboxes=..., class_labels=...)] *)
Definition Transform `{Cv2} : Type :=
  image -> list ibox -> list Z -> result Transformed.

Record PascalDataset `{Cv2} : Type := MkPascalDataset {
  tfms : Transform;
  df : DataFrame;
  image_ids : list string
}.
Arguments MkPascalDataset {_} _ _ _.

(** [Series.unique()]: the distinct values in order of first appearance,
    found with a table of the values seen so far. *)
Fixpoint unique_from (seen : gset string) (l : list string) : list string :=
  match l with
  | [] => []
  | x :: l' =>
      if decide (x ∈ seen) then unique_from seen l'
      else x :: unique_from ({[x]} ∪ seen) l'
  end.

Definition unique (l : list string) : list string := unique_from ∅ l.

(** [__init__] on a data frame held in memory. *)
Definition init `{Cv2} (dataframe : DataFrame) (transforms : Transform) : PascalDataset :=
  MkPascalDataset transforms dataframe (unique (filename <$> df_rows dataframe)).

(** [__len__] *)
Definition len `{Cv2} (self : PascalDataset) : nat := length (image_ids self).

(** [a[index]] on an array: negative indices count from the end. *)
Definition array_get {A : Type} (a : list A) (index : Z) : result A :=
  let n := Z.of_nat (length a) in
  if (0 <=? index) && (index <? n) then from_option IndexError (a !! Z.to_nat index)
  else if (- n <=? index) && (index <? 0) then from_option IndexError (a !! Z.to_nat (n + index))
  else Raise IndexError.

(** Selection by a boolean mask, as in [df[df["filename"] == image_id]]. *)
Fixpoint select {A : Type} (mask : list bool) (l : list A) : list A :=
  match mask, l with
  | b :: mask', x :: l' => if b then x :: select mask' l' else select mask' l'
  | _, _ => []
  end.

(** 64-bit two's complement wrap-around of numpy integer arithmetic. *)
Definition wrap64 (z : Z) : Z := (z + 2 ^ 63) mod 2 ^ 64 - 2 ^ 63.

Definition row_box (r : Row) : ibox := (xmin r, ymin r, xmax r, ymax r).

(** [(boxes[:, 3] - boxes[:, 1]) * (boxes[:, 2] - boxes[:, 0])] for one row,
    then [torch.as_tensor(..., dtype=torch.float32)]. *)
Definition box_area (b : ibox) : PyFloat.float :=
  let '(x0, y0, x1, y1) := b in
  PyFloat.f32_of_int (wrap64 (wrap64 (y1 - y0) * wrap64 (x1 - x0))).

(** A row of [torch.tensor(filtered_bboxes, dtype=torch.float32)]. *)
Definition tensor_row (b : fbox) : list PyFloat.float :=
  let '(x0, y0, x1, y1) := b in
  [PyFloat.f32_of_float x0; PyFloat.f32_of_float y0;
   PyFloat.f32_of_float x1; PyFloat.f32_of_float y1].

Record Target : Type := MkTarget {
  t_image_id : list Z;
  t_boxes : list (list PyFloat.float);
  t_labels : list Z;
  t_area : list PyFloat.float;
  t_iscrowd : list Z
}.

(** What [__getitem__] returns: [None], or the triple. *)
Inductive Item `{Cv2} : Type :=
  | Skip
  | Sample (im : image) (target : Target) (image_idx : list Z).
Arguments Skip {_}.
Arguments Sample {_} _ _ _.

(** Everything [__getitem__] has computed when it calls the transform. *)
Record Prepared `{Cv2} : Type := MkPrepared {
  p_im : image;
  p_f_boxes : list ibox;
  p_class_labels : list Z;
  p_area : list PyFloat.float;
  p_iscrowd : list Z
}.
Arguments MkPrepared {_} _ _ _ _ _.

(** [__getitem__] up to the call of the transform. *)
Definition prepare `{Cv2} (self : PascalDataset) (index : Z) : result Prepared :=
  image_id ← array_get (image_ids self) index;
  im ← COLOR_BGR2RGB <$> from_option Cv2Error (imread image_id);
  let mask := (fun r => bool_decide (filename r = image_id)) <$> df_rows (df self) in
  let records := select mask (df_rows (df self)) in
  let boxes := row_box <$> records in
  let area := box_area <$> boxes in
  class_labels ← select mask <$> from_option KeyError (df_labels (df self));
  let iscrowd := replicate (length records) 0 in
  let f_boxes := filter (fun bbox => is_bbox_valid bbox) boxes in
  Ok (MkPrepared im f_boxes class_labels area iscrowd).

(** [__getitem__] from the result of the transform on. *)
Definition finish `{Cv2} (index : Z) (p : Prepared) (tran : Transformed) : result Item :=
  let image := tr_image tran in
  let transformed_boxes := tr_bboxes tran in
  let class_labels := tr_class_labels tran in
  let filtered_bboxes := filter (fun bbox => is_bbox_valid bbox) transformed_boxes in
  if negb (length filtered_bboxes =? length transformed_boxes)%nat then Ok Skip
  else
    boxes ← clamp_bbox_coordinates (tensor_row <$> filtered_bboxes);
    let image_idx := [index] in
    Ok (Sample image (MkTarget image_idx boxes class_labels (p_area p) (p_iscrowd p))
               image_idx).

Definition getitem `{Cv2} (self : PascalDataset) (index : Z) : result Item :=
  p ← prepare self index;
  tran ← tfms self (p_im p) (p_f_boxes p) (p_class_labels p);
  finish index p tran.

(** * Specification predicates and sample data *)

(** What [clamp_bbox_coordinates] guarantees for one box and its image. *)
Definition clamped (bbox out : list PyFloat.float) : Prop :=
  length out = length bbox /\
  (forall (i : nat) (x : PyFloat.float), (i < 4)%nat -> bbox !! i = Some x ->
     out !! i = Some (PyFloat.py_max PyFloat.zero (PyFloat.py_min x PyFloat.one)) /\
     in_unit (PyFloat.py_max PyFloat.zero (PyFloat.py_min x PyFloat.one)) = true) /\
  out !! 4%nat = bbox !! 4%nat.

(** A row carries the file name, width and height of the document [root]:
    the text of its [filename] element joined with [image_dir], and the
    integers read from the first and second child of its [size] element. *)
Definition carries_document (image_dir : string) (root : Element) (r : Row) : Prop :=
  (exists f, text_of (find "filename" root) = Ok (Some f) /\
             filename r = path_join image_dir f) /\
  size_child root 0 = Ok (width r) /\
  size_child root 1 = Ok (height r).

(** Sample annotation documents. *)
Definition leaf (tag text : string) : Element := Elem tag (Some text) [].

Definition voc_object (name x0 y0 x1 y1 : string) : Element :=
  Elem "object" None
    [leaf "name" name;
     Elem "bndbox" None [leaf "xmin" x0; leaf "ymin" y0; leaf "xmax" x1; leaf "ymax" y1]].

Definition voc_document (fname : string) (size objects : list Element) : Element :=
  Elem "annotation" None (leaf "filename" fname :: Elem "size" None size :: objects).

(** [a.jpg], 100 by 100, a cat and a dog. *)
Definition doc_a : Element :=
  voc_document "a.jpg" [leaf "width" "100"; leaf "height" "100"; leaf "depth" "3"]
    [voc_object "cat" "10" "10" "50" "50"; voc_object "dog" "60" "60" "90" "90"].

(** A document without any object. *)
Definition doc_b : Element :=
  voc_document "b.jpg" [leaf "width" "640"; leaf "height" "480"] [].

(** [size] lists [height] before [width]. *)
Definition doc_c : Element :=
  voc_document "c.jpg" [leaf "height" "300"; leaf "width" "500"]
    [voc_object "bird" "1" "2" "3" "4"].

(** [size] starts with [depth]. *)
Definition doc_d : Element :=
  voc_document "d.jpg" [leaf "depth" "3"; leaf "width" "500"; leaf "height" "300"]
    [voc_object "cat" "5" "6" "7" "8"].

(** The label column of a table returned by a flattening call, and how a
    table flattened on the training split relates to the tables flattened
    afterwards, with the encoder it left behind, on the other two splits. *)
Definition labels_positive (dfr : DataFrame) : Prop :=
  forall ls, df_labels dfr = Some ls ->
    length ls = length (df_rows dfr) /\ Forall (fun l => 1 <= l) ls.

Definition same_class_same_label (df1 df2 : DataFrame) : Prop :=
  forall ls1 ls2 (i j : nat) r1 r2 l1 l2,
    df_labels df1 = Some ls1 -> df_labels df2 = Some ls2 ->
    df_rows df1 !! i = Some r1 -> ls1 !! i = Some l1 ->
    df_rows df2 !! j = Some r2 -> ls2 !! j = Some l2 ->
    class r1 = class r2 -> l1 = l2.

(** The table flattened from [doc_a] on the training split, and the state
    in which that call leaves the encoder. *)
Definition df_a : DataFrame :=
  MkDataFrame
    [MkRow "imgs/a.jpg" 100 100 (Some "cat") 10 10 50 50;
     MkRow "imgs/a.jpg" 100 100 (Some "dog") 60 60 90 90]
    (Some [1; 2]).

Definition encoder_a : LabelEncoder := Some [Some "cat"; Some "dog"].

(** The table flattened from [doc_d] on the validation split after that. *)
Definition df_d : DataFrame :=
  MkDataFrame [MkRow "imgs/d.jpg" 3 500 (Some "cat") 5 6 7 8] (Some [1]).

(** The rows of the image [image_id], and the integer range of numpy. *)
Definition records_of (dataframe : DataFrame) (image_id : string) : list Row :=
  filter (fun r => filename r = image_id) (df_rows dataframe).


(** A stand-in for [cv2] that reads every file as the same picture, and a
    transform that returns no box and no label. *)
Definition unit_cv : Cv2 :=
  {| image := unit; imread := fun _ => Some tt; COLOR_BGR2RGB := fun im => im |}.

Definition drop_all : @Transform unit_cv :=
  fun im _ _ => Ok (@MkTransformed unit_cv im [] []).


Definition df_mixed : DataFrame :=
  MkDataFrame
    [MkRow "a.jpg" 100 100 (Some "cat") 0 0 1 1;
     MkRow "a.jpg" 100 100 (Some "dog") 10 10 50 50]
    (Some [1; 2]).



(** The rows of [df_a] behind the stand-in reader: both boxes are in pixels. *)
Definition pixel_dataset : @PascalDataset unit_cv := @init unit_cv df_a drop_all.


(** A transform that returns the image, its boxes as floats and the labels
    as it got them. *)
Definition float_box (b : ibox) : fbox :=
  let '(x0, y0, x1, y1) := b in
  (PyFloat.f32_of_int x0, PyFloat.f32_of_int y0,
   PyFloat.f32_of_int x1, PyFloat.f32_of_int y1).

Definition keep_all `{Cv2} : Transform :=
  fun im boxes labels => Ok (MkTransformed im (float_box <$> boxes) labels).



(** Two tables one after the other; the label column survives when both
    have one. *)
Definition df_concat (df1 df2 : DataFrame) : DataFrame :=
  MkDataFrame (df_rows df1 ++ df_rows df2)
    match df_labels df1, df_labels df2 with
    | Some l1, Some l2 => Some (l1 ++ l2)
    | _, _ => None
    end.

(** The order in which [classes_] lists the class names. *)
Definition class_lt (a b : class_name) : Prop := class_ltb a b = true.

(** A document that names the dog before the cat, and an object without a
    class name. *)
Definition doc_e : Element :=
  voc_document "e.jpg" [leaf "width" "20"; leaf "height" "10"]
    [voc_object "dog" "1" "1" "2" "2";
     Elem "object" None
       [Elem "name" None [];
        Elem "bndbox" None
          [leaf "xmin" "0"; leaf "ymin" "0"; leaf "xmax" "1"; leaf "ymax" "1"]];
     voc_object "cat" "3" "3" "4" "4"].


(** What a document needs for its objects to be flattened: each object has
    a [name] element and a [bndbox] with four integer fields, and the
    document has a [filename] with text and a [size] whose first two children
    hold integers. A document without objects needs nothing. *)
Definition has_int (tag : string) (e : Element) : Prop :=
  exists c z, find tag e = Some c /\ py_int (el_text c) = Ok z.

Definition object_ok (member : Element) : Prop :=
  (exists bbx, find "bndbox" member = Some bbx /\
               has_int "xmin" bbx /\ has_int "ymin" bbx /\
               has_int "xmax" bbx /\ has_int "ymax" bbx) /\
  is_Some (find "name" member).

Definition document_ok (root : Element) : Prop :=
  findall "object" root = [] \/
  (Forall object_ok (findall "object" root) /\
   (exists c f, find "filename" root = Some c /\ el_text c = Some f) /\
   (exists size c0 c1 rest z0 z1,
      find "size" root = Some size /\ el_children size = c0 :: c1 :: rest /\
      py_int (el_text c0) = Ok z0 /\ py_int (el_text c1) = Ok z1)).


(** ** [get_pascal]

    The table is written under a name derived from the split and wrapped in
    a dataset; [transforms] is the keyword argument passed on to
    [PascalDataset]. The file written is returned as its name and content,
    next to the dataset and the state of the encoder. *)
Definition get_pascal `{Cv2}
    (files : list Element) (image_dir image_set : string)
    (transforms : Transform) (encoder : LabelEncoder)
  : result (PascalDataset * LabelEncoder * (string * DataFrame)) :=
  let n := "pascal_" +:+ image_set +:+ ".csv" in
  '(df, encoder') ← convert_annotations_to_df files image_dir image_set encoder;
  let ds := init df transforms in
  Ok (ds, encoder', (n, df)).

(** The image path a document gives to its rows. *)
Definition document_path (image_dir : string) (root : Element) : option string :=
  c ← find "filename" root; f ← el_text c; Some (path_join image_dir f).


(** A row carries the class name and the box of the [object] element
    [member]: the text of its [name] and the four integers of its [bndbox]. *)
Definition carries_object (member : Element) (r : Row) : Prop :=
  text_of (find "name" member) = Ok (class r) /\
  int_field "xmin" (find "bndbox" member) = Ok (xmin r) /\
  int_field "ymin" (find "bndbox" member) = Ok (ymin r) /\
  int_field "xmax" (find "bndbox" member) = Ok (xmax r) /\
  int_field "ymax" (find "bndbox" member) = Ok (ymax r).

(** * Properties *)

(** ** The result monad *)

Lemma bind_Ok {A B : Type} (r : result A) (k : A -> result B) (b : B) :
  r ≫= k = Ok b <-> exists a, r = Ok a /\ k a = Ok b.
Proof.
  destruct r as [a|e]; simpl; split.
  - intros Hk. exists a. auto.
  - intros (a' & Ha & Hk). congruence.
  - discriminate.
  - intros (a' & Ha & _). discriminate.
Qed.

Lemma fmap_Ok {A B : Type} (f : A -> B) (r : result A) (b : B) :
  f <$> r = Ok b <-> exists a, r = Ok a /\ b = f a.
Proof.
  destruct r as [a|e]; simpl; split.
  - intros [= <-]. eauto.
  - intros (a' & [= <-] & ->). reflexivity.
  - discriminate.
  - intros (a' & Ha & _). discriminate.
Qed.

Lemma from_option_Ok {A : Type} (e : exn) (o : option A) (a : A) :
  from_option e o = Ok a <-> o = Some a.
Proof. destruct o; simpl; split; congruence. Qed.

(** Inversion of a successful computation, one bind at a time. *)
Ltac inv_ok H :=
  repeat (apply bind_Ok in H; destruct H as (? & ? & H)).

Lemma mapM_cons {A B : Type} (f : A -> result B) (x : A) (l : list A) :
  mapM f (x :: l) = y ← f x; k ← mapM f l; Ok (y :: k).
Proof. reflexivity. Qed.

Lemma mapM_Ok {A B : Type} (f : A -> result B) (l : list A) (k : list B) :
  mapM f l = Ok k <-> Forall2 (fun x y => f x = Ok y) l k.
Proof.
  revert k. induction l as [|x l IH]; intros k.
  - split.
    + intros [= <-]. constructor.
    + intros Hk. inversion Hk. reflexivity.
  - rewrite mapM_cons. split.
    + intros Hk. inv_ok Hk. injection Hk as <-.
      constructor; [assumption | by apply IH].
    + intros Hk. inversion Hk as [|? y ? k' Hy Hk']; subst.
      rewrite Hy. simpl. apply IH in Hk'. rewrite Hk'. reflexivity.
Qed.

Lemma mapM_Ok_length {A B : Type} (f : A -> result B) (l : list A) (k : list B) :
  mapM f l = Ok k -> length k = length l.
Proof. intros Hk. apply mapM_Ok in Hk. symmetry. by eapply Forall2_length. Qed.

Lemma mapM_total {A B : Type} (f : A -> result B) (l : list A) :
  Forall (fun x => exists y, f x = Ok y) l -> exists k, mapM f l = Ok k.
Proof.
  induction 1 as [|x l [y Hy] _ [k Hk]].
  - by exists [].
  - exists (y :: k). rewrite mapM_cons, Hy. simpl. by rewrite Hk.
Qed.

Lemma mapM_concat {A B : Type} (f : A -> result B) (ls : list (list A)) (k : list B) :
  mapM f (concat ls) = Ok k ->
  exists parts, k = concat parts /\ Forall2 (fun l part => mapM f l = Ok part) ls parts.
Proof.
  rewrite mapM_Ok. revert k. induction ls as [|l ls IH]; simpl; intros k Hk.
  - inversion Hk. exists []. split; [reflexivity | constructor].
  - apply Forall2_app_inv_l in Hk as (k1 & k2 & H1 & H2 & ->).
    destruct (IH _ H2) as (parts & -> & Hparts).
    exists (k1 :: parts). split; [reflexivity|].
    constructor; [by apply mapM_Ok | assumption].
Qed.

(** ** Comparison of floats *)

Lemma xcompare_antisym (a b : PyFloat.xreal) :
  PyFloat.xcompare b a = CompOpp (PyFloat.xcompare a b).
Proof.
  destruct a, b; simpl; try reflexivity.
  unfold PyFloat.cmp_fin. rewrite (Z.min_comm e0 e). apply Z.compare_antisym.
Qed.

Lemma compare_antisym (x y : PyFloat.float) :
  PyFloat.compare y x = CompOpp <$> PyFloat.compare x y.
Proof.
  unfold PyFloat.compare.
  destruct (PyFloat.to_xreal x), (PyFloat.to_xreal y); simpl; try reflexivity.
  by rewrite xcompare_antisym.
Qed.

Lemma gtb_leb (x y : PyFloat.float) :
  PyFloat.gtb x y = true -> PyFloat.leb y x = true.
Proof.
  unfold PyFloat.gtb, PyFloat.leb. rewrite (compare_antisym x y).
  by destruct (PyFloat.compare x y) as [[]|].
Qed.

(** Among ordered floats, "not below" is "at most" the other way round. *)
(** Among ordered floats, "not below" is "at most" the other way round. *)
Lemma not_ltb_leb (x y z w : PyFloat.float) :
  PyFloat.gtb x z = true -> PyFloat.gtb y w = true ->
  PyFloat.ltb y x = false -> PyFloat.leb x y = true.
Proof.
  unfold PyFloat.gtb, PyFloat.ltb, PyFloat.leb. rewrite (compare_antisym x y).
  unfold PyFloat.compare.
  destruct (PyFloat.to_xreal x), (PyFloat.to_xreal z), (PyFloat.to_xreal y),
    (PyFloat.to_xreal w); simpl; try discriminate.
  intros _ _. by destruct (PyFloat.xcompare _ _).
Qed.

(** ** The clamp of one coordinate *)

Lemma clamp01_cases (v : PyFloat.float) :
  clamp01 v = PyFloat.zero \/ clamp01 v = PyFloat.one \/
  (clamp01 v = v /\ PyFloat.gtb v PyFloat.zero = true
                 /\ PyFloat.ltb PyFloat.one v = false).
Proof.
  unfold clamp01, PyFloat.py_min.
  destruct (PyFloat.ltb PyFloat.one v) eqn:Hone.
  - right; left. reflexivity.
  - unfold PyFloat.py_max. destruct (PyFloat.gtb v PyFloat.zero) eqn:Hzero; auto.
Qed.

Lemma clamp01_in_unit (v : PyFloat.float) : in_unit (clamp01 v) = true.
Proof.
  destruct (clamp01_cases v) as [-> | [-> | (-> & Hzero & Hone)]];
    [reflexivity | reflexivity |].
  unfold in_unit, float_unit01. apply andb_true_intro. split.
  - by apply gtb_leb.
  - by apply (not_ltb_leb v PyFloat.one PyFloat.zero PyFloat.zero).
Qed.

Lemma clamp01_idempotent (v : PyFloat.float) : clamp01 (clamp01 v) = clamp01 v.
Proof.
  destruct (clamp01_cases v) as [-> | [-> | (Hv & _)]];
    [reflexivity | reflexivity |].
  by rewrite !Hv.
Qed.

Lemma clamp_bbox_spec (bbox : list PyFloat.float) :
  length bbox = 4%nat \/ length bbox = 5%nat ->
  exists out, clamp_bbox bbox = Ok out /\ clamp_bbox out = Ok out /\ clamped bbox out.
Proof.
  intros Hlen.
  assert (Hcoord : forall out : list PyFloat.float, length out = length bbox ->
            (forall (i : nat) x, (i < 4)%nat -> bbox !! i = Some x ->
               out !! i = Some (clamp01 x)) ->
            out !! 4%nat = bbox !! 4%nat -> clamped bbox out).
  { intros out H1 H2 H3. split; [assumption|]. split; [|assumption].
    intros i x Hi Hx. split; [by apply H2 | apply clamp01_in_unit]. }
  destruct bbox as [|a [|b [|c [|d [|k [|]]]]]]; simpl in Hlen;
    try (destruct Hlen; discriminate).
  - eexists. split; [reflexivity|]. split.
    + unfold clamp_bbox. simpl. by rewrite !clamp01_idempotent.
    + apply Hcoord; [reflexivity| |reflexivity].
      intros [|[|[|[|i]]]] x Hi Hx; simpl in *; try lia; congruence.
  - eexists. split; [reflexivity|]. split.
    + unfold clamp_bbox. simpl. by rewrite !clamp01_idempotent.
    + apply Hcoord; [reflexivity| |reflexivity].
      intros [|[|[|[|i]]]] x Hi Hx; simpl in *; try lia; congruence.
Qed.

Lemma clamp_all_spec (bboxes : list (list PyFloat.float)) :
  Forall (fun bbox => length bbox = 4%nat \/ length bbox = 5%nat) bboxes ->
  exists out,
    clamp_bbox_coordinates bboxes = Ok out /\
    clamp_bbox_coordinates out = Ok out /\
    Forall2 clamped bboxes out.
Proof.
  unfold clamp_bbox_coordinates.
  induction 1 as [|bbox bboxes Hbbox _ (out & Hout & Hidem & Hall)].
  - exists []. repeat split; constructor.
  - destruct (clamp_bbox_spec bbox Hbbox) as (o & Ho & Hoo & Hc).
    exists (o :: out). rewrite !mapM_cons, Ho, Hoo. simpl.
    rewrite Hout, Hidem. simpl. repeat split. by constructor.
Qed.

(** C3. [clamp_bbox_coordinates] never raises on a sequence of 4- and
    5-element boxes. Its result has one box per input box, each of the
    length of its input; the first four coordinates are
    [max(0, min(value, 1))] and lie in the unit interval, a fifth element is
    returned as it came; and clamping the result again changes nothing. *)
Theorem clamp_bbox_coordinates_spec (bboxes : list (list PyFloat.float)) :
  Forall (fun bbox => length bbox = 4%nat \/ length bbox = 5%nat) bboxes ->
  exists out,
    clamp_bbox_coordinates bboxes = Ok out /\
    clamp_bbox_coordinates out = Ok out /\
    length out = length bboxes /\
    Forall2 clamped bboxes out.
Proof.
  intros Hshape. destruct (clamp_all_spec bboxes Hshape) as (out & Hout & Hidem & Hall).
  exists out. repeat split; try assumption.
  symmetry. by eapply Forall2_length.
Qed.

Lemma clamp_bbox_coordinates_spec_witness :
  exists out,
    clamp_bbox_coordinates
      [[S754_nan; S754_infinity false; S754_finite true 1 (-1); PyFloat.one];
       [PyFloat.zero; S754_finite false 1 (-1); S754_finite false 3 0;
        S754_zero true; S754_finite false 7 0]] = Ok out /\
    clamp_bbox_coordinates out = Ok out /\
    length out = 2%nat /\
    out = [[PyFloat.zero; PyFloat.one; PyFloat.zero; PyFloat.one];
           [PyFloat.zero; S754_finite false 1 (-1); PyFloat.one; PyFloat.zero;
            S754_finite false 7 0]].
Proof.
  destruct (clamp_bbox_coordinates_spec
              [[S754_nan; S754_infinity false; S754_finite true 1 (-1); PyFloat.one];
               [PyFloat.zero; S754_finite false 1 (-1); S754_finite false 3 0;
                S754_zero true; S754_finite false 7 0]])
    as (out & Hout & Hidem & Hlen & _).
  - apply Forall_cons_2; [left; reflexivity|].
    apply Forall_cons_2; [right; reflexivity|]. apply Forall_nil_2.
  - exists out. repeat split; try assumption.
    vm_compute in Hout. by injection Hout as <-.
Defined.

(** ** [unique] and [__len__] *)

Lemma unique_from_elem (seen : gset string) (l : list string) (x : string) :
  x ∈ unique_from seen l <-> x ∈ l /\ x ∉ seen.
Proof.
  revert seen. induction l as [|y l IH]; intros seen; simpl.
  - set_solver.
  - destruct (decide (y ∈ seen)) as [Hy|Hy].
    + rewrite IH. set_solver.
    + rewrite elem_of_cons, IH. destruct (decide (x = y)); set_solver.
Qed.

Lemma unique_from_NoDup (seen : gset string) (l : list string) :
  NoDup (unique_from seen l).
Proof.
  revert seen. induction l as [|y l IH]; intros seen; simpl.
  - constructor.
  - destruct (decide (y ∈ seen)); [apply IH|].
    constructor; [|apply IH]. rewrite unique_from_elem. set_solver.
Qed.

Lemma unique_from_length (seen : gset string) (l : list string) :
  length (unique_from seen l) = size (list_to_set l ∖ seen : gset string).
Proof.
  revert seen. induction l as [|y l IH]; intros seen; simpl.
  - by rewrite difference_disjoint_L, size_empty by set_solver.
  - destruct (decide (y ∈ seen)) as [Hy|Hy].
    + rewrite IH. f_equal. set_solver.
    + simpl. rewrite IH.
      replace (({[y]} ∪ list_to_set l) ∖ seen : gset string)
        with ({[y]} ∪ list_to_set l ∖ ({[y]} ∪ seen) : gset string)
        by (apply set_eq; intros x; destruct (decide (x = y)); set_solver).
      rewrite (size_union ({[y]} : gset string) (list_to_set l ∖ ({[y]} ∪ seen)))
        by set_solver.
      by rewrite size_singleton.
Qed.

(** C6. [__len__] is the number of distinct [filename] values of the backing
    table: the image ids are duplicate-free, they are exactly the file names
    that occur in some row, and their count is the cardinal of the set of
    file names, however many rows carry each of them. *)
Theorem len_counts_distinct_filenames `{Cv2}
    (dataframe : DataFrame) (transforms : Transform) :
  let self := init dataframe transforms in
  len self = size (list_to_set (filename <$> df_rows dataframe) : gset string) /\
  NoDup (image_ids self) /\
  (forall f : string,
     f ∈ image_ids self <-> exists r, r ∈ df_rows dataframe /\ filename r = f).
Proof.
  simpl. unfold len, init, unique. simpl. split; [|split].
  - rewrite unique_from_length. f_equal. set_solver.
  - apply unique_from_NoDup.
  - intros f. rewrite unique_from_elem, list_elem_of_fmap. set_solver.
Qed.

(** ** The rows of the flattened table *)

Lemma Forall2_compose {A B C : Type} (P : A -> B -> Prop) (Q : B -> C -> Prop)
    (l : list A) (k : list B) (m : list C) :
  Forall2 P l k -> Forall2 Q k m ->
  Forall2 (fun x z => exists y, P x y /\ Q y z) l m.
Proof.
  intros Hlk. revert m. induction Hlk as [|x y l k Hxy _ IH]; intros m Hkm.
  - inversion Hkm. constructor.
  - inversion Hkm as [|? z ? m' Hyz Hkm']; subst.
    constructor; [by exists y | by apply IH].
Qed.

Lemma size_child_Ok (root : Element) (i : nat) (z : Z) :
  size_child root i = Ok z <->
  exists size c, find "size" root = Some size /\ el_children size !! i = Some c /\
                 py_int (el_text c) = Ok z.
Proof.
  unfold size_child. split.
  - intros Hz. apply bind_Ok in Hz as (size & Hsize & Hz).
    apply bind_Ok in Hz as (c & Hc & Hz).
    apply from_option_Ok in Hsize, Hc. eauto.
  - intros (size & c & -> & Hc & Hz). simpl. rewrite Hc. simpl. exact Hz.
Qed.

Lemma member_value_Ok (root member : Element) (v : xml_value) :
  member_value root member = Ok v ->
  text_of (find "filename" root) = Ok (v_filename v) /\
  size_child root 0 = Ok (v_width v) /\
  size_child root 1 = Ok (v_height v) /\
  text_of (find "name" member) = Ok (v_class v) /\
  int_field "xmin" (find "bndbox" member) = Ok (v_xmin v) /\
  int_field "ymin" (find "bndbox" member) = Ok (v_ymin v) /\
  int_field "xmax" (find "bndbox" member) = Ok (v_xmax v) /\
  int_field "ymax" (find "bndbox" member) = Ok (v_ymax v).
Proof.
  unfold member_value. intros Hv.
  apply bind_Ok in Hv as (x0 & Hx0 & Hv). apply bind_Ok in Hv as (y0 & Hy0 & Hv).
  apply bind_Ok in Hv as (x1 & Hx1 & Hv). apply bind_Ok in Hv as (y1 & Hy1 & Hv).
  apply bind_Ok in Hv as (label & Hlabel & Hv).
  apply bind_Ok in Hv as (fname & Hfname & Hv).
  apply bind_Ok in Hv as (w & Hw & Hv). apply bind_Ok in Hv as (h & Hh & Hv).
  injection Hv as <-. simpl. auto 10.
Qed.

Lemma join_row_Ok (image_dir : string) (v : xml_value) (r : Row) :
  join_row image_dir v = Ok r ->
  (exists f, v_filename v = Some f /\ filename r = path_join image_dir f) /\
  width r = v_width v /\ height r = v_height v /\ class r = v_class v /\
  row_box r = (v_xmin v, v_ymin v, v_xmax v, v_ymax v).
Proof.
  unfold join_row. intros Hr. apply bind_Ok in Hr as (f & Hf & Hr).
  apply from_option_Ok in Hf. injection Hr as <-. simpl. eauto 10.
Qed.

(** The table is the concatenation, in file order, of what each document
    contributes: one joined row per value of its [object] elements. *)
Lemma xml_rows_parts (files : list Element) (image_dir : string) (rows : list Row) :
  xml_rows files image_dir = Ok rows ->
  exists parts,
    rows = concat parts /\
    Forall2 (fun root part =>
               exists vs, document_values root = Ok vs /\
                          mapM (join_row image_dir) vs = Ok part) files parts.
Proof.
  unfold xml_rows. intros Hrows. apply bind_Ok in Hrows as (vss & Hvss & Hrows).
  apply mapM_concat in Hrows as (parts & -> & Hparts).
  exists parts. split; [reflexivity|].
  apply mapM_Ok in Hvss. exact (Forall2_compose _ _ _ _ _ Hvss Hparts).
Qed.

Lemma convert_rows (files : list Element) (image_dir image_set : string)
    (encoder encoder' : LabelEncoder) (dfr : DataFrame) :
  convert_annotations_to_df files image_dir image_set encoder = Ok (dfr, encoder') ->
  xml_rows files image_dir = Ok (df_rows dfr).
Proof.
  unfold convert_annotations_to_df. intros Hc.
  apply bind_Ok in Hc as (rows & Hrows & Hc). rewrite Hrows. f_equal.
  repeat case_decide.
  - apply bind_Ok in Hc as ([codes e] & _ & Hc). by injection Hc as <- _.
  - apply bind_Ok in Hc as (codes & _ & Hc). by injection Hc as <- _.
  - by injection Hc as <- _.
Qed.

(** The rows one document contributes, seen from the document. *)
Lemma document_part (image_dir : string) (root : Element) (vs : list xml_value)
    (part : list Row) :
  document_values root = Ok vs -> mapM (join_row image_dir) vs = Ok part ->
  length part = length (findall "object" root) /\
  Forall (fun r =>
            (exists f, text_of (find "filename" root) = Ok (Some f) /\
                       filename r = path_join image_dir f) /\
            size_child root 0 = Ok (width r) /\
            size_child root 1 = Ok (height r)) part.
Proof.
  unfold document_values. intros Hvs Hpart. split.
  - apply mapM_Ok_length in Hvs, Hpart. congruence.
  - apply mapM_Ok in Hvs, Hpart.
    assert (Hall : Forall (fun v => exists member, member_value root member = Ok v) vs).
    { clear Hpart. induction Hvs; constructor; eauto. }
    clear Hvs. induction Hpart as [|v r vs part Hr _ IH]; [constructor|].
    inversion Hall as [|? ? [member Hv] Hall']; subst.
    constructor; [|by apply IH].
    apply member_value_Ok in Hv as (Hf & Hw & Hh & _).
    apply join_row_Ok in Hr as ((f & Hvf & Hrf) & -> & -> & _).
    rewrite Hvf in Hf. eauto.
Qed.

(** C4. When flattening returns a table, its rows are the concatenation, in
    file order, of one part per annotation document; the part of a document
    has exactly as many rows as the document has [object] entries (none for
    a document without objects), and each of these rows carries the
    document's file name joined with [image_dir], its width and its height. *)
Theorem flatten_one_row_per_object
    (files : list Element) (image_dir image_set : string)
    (encoder encoder' : LabelEncoder) (dfr : DataFrame) :
  convert_annotations_to_df files image_dir image_set encoder = Ok (dfr, encoder') ->
  exists parts,
    df_rows dfr = concat parts /\
    Forall2 (fun root part =>
               length part = length (findall "object" root) /\
               (findall "object" root = [] -> part = []) /\
               Forall (carries_document image_dir root) part) files parts.
Proof.
  intros Hc. apply convert_rows in Hc.
  apply xml_rows_parts in Hc as (parts & -> & Hparts).
  exists parts. split; [reflexivity|].
  eapply Forall2_impl; [exact Hparts|].
  intros root part (vs & Hvs & Hpart). simpl.
  destruct (document_part _ _ _ _ Hvs Hpart) as [Hlen Hall].
  split; [assumption|]. split; [|exact Hall].
  intros Hnone. rewrite Hnone in Hlen. by destruct part.
Qed.

Lemma flatten_one_row_per_object_witness :
  exists parts,
    [MkRow "imgs/a.jpg" 100 100 (Some "cat") 10 10 50 50;
     MkRow "imgs/a.jpg" 100 100 (Some "dog") 60 60 90 90;
     MkRow "imgs/c.jpg" 300 500 (Some "bird") 1 2 3 4] = concat parts /\
    Forall2 (fun root part =>
               length part = length (findall "object" root) /\
               (findall "object" root = [] -> part = []) /\
               Forall (carries_document "imgs" root) part)
            [doc_a; doc_b; doc_c] parts.
Proof.
  apply (flatten_one_row_per_object [doc_a; doc_b; doc_c] "imgs" "train" None
           (Some [Some "bird"; Some "cat"; Some "dog"])
           (MkDataFrame
              [MkRow "imgs/a.jpg" 100 100 (Some "cat") 10 10 50 50;
               MkRow "imgs/a.jpg" 100 100 (Some "dog") 60 60 90 90;
               MkRow "imgs/c.jpg" 300 500 (Some "bird") 1 2 3 4]
              (Some [2; 3; 1]))).
  vm_compute. reflexivity.
Defined.

(** C10. Width and height are read by position. When flattening returns a
    table, the rows contributed by a document whose [size] element has the
    children [c0], [c1], ... hold [int(c0.text)] as width and [int(c1.text)]
    as height, whatever the tags of [c0] and [c1] are; and a document that
    contributes a row has such a [size] element. *)
Theorem size_read_by_position
    (files : list Element) (image_dir image_set : string)
    (encoder encoder' : LabelEncoder) (dfr : DataFrame) :
  convert_annotations_to_df files image_dir image_set encoder = Ok (dfr, encoder') ->
  exists parts,
    df_rows dfr = concat parts /\
    Forall2 (fun root part =>
               length part = length (findall "object" root) /\
               (part <> [] ->
                exists size c0 c1 rest,
                  find "size" root = Some size /\
                  el_children size = c0 :: c1 :: rest) /\
               (forall size c0 c1 rest,
                  find "size" root = Some size ->
                  el_children size = c0 :: c1 :: rest ->
                  Forall (fun r => py_int (el_text c0) = Ok (width r) /\
                                   py_int (el_text c1) = Ok (height r)) part))
            files parts.
Proof.
  intros Hc. apply convert_rows in Hc.
  apply xml_rows_parts in Hc as (parts & -> & Hparts).
  exists parts. split; [reflexivity|].
  eapply Forall2_impl; [exact Hparts|].
  intros root part (vs & Hvs & Hpart). simpl.
  destruct (document_part _ _ _ _ Hvs Hpart) as [Hlen Hall].
  split; [assumption|]. split.
  - destruct part as [|r part]; [done|]. intros _.
    inversion Hall as [|? ? (_ & Hw & Hh) _]; subst.
    apply size_child_Ok in Hw as (size & c0 & Hsize & Hc0 & _).
    apply size_child_Ok in Hh as (size' & c1 & Hsize' & Hc1 & _).
    rewrite Hsize in Hsize'. injection Hsize' as <-.
    destruct (el_children size) as [|d0 [|d1 rest]] eqn:Hch; try discriminate.
    by exists size, d0, d1, rest.
  - intros size c0 c1 rest Hsize Hch.
    eapply Forall_impl; [exact Hall|].
    intros r (_ & Hw & Hh). simpl.
    apply size_child_Ok in Hw as (size0 & d0 & Hsize0 & Hd0 & Hw).
    apply size_child_Ok in Hh as (size1 & d1 & Hsize1 & Hd1 & Hh).
    rewrite Hsize in Hsize0, Hsize1.
    injection Hsize0 as <-. injection Hsize1 as <-.
    rewrite Hch in Hd0, Hd1. simpl in Hd0, Hd1.
    injection Hd0 as <-. injection Hd1 as <-. by split.
Qed.

Lemma size_read_by_position_witness :
  exists parts,
    [MkRow "c.jpg" 300 500 (Some "bird") 1 2 3 4;
     MkRow "d.jpg" 3 500 (Some "cat") 5 6 7 8] = concat parts /\
    Forall2 (fun root part =>
               length part = length (findall "object" root) /\
               (part <> [] ->
                exists size c0 c1 rest,
                  find "size" root = Some size /\
                  el_children size = c0 :: c1 :: rest) /\
               (forall size c0 c1 rest,
                  find "size" root = Some size ->
                  el_children size = c0 :: c1 :: rest ->
                  Forall (fun r => py_int (el_text c0) = Ok (width r) /\
                                   py_int (el_text c1) = Ok (height r)) part))
            [doc_c; doc_d] parts.
Proof.
  apply (size_read_by_position [doc_c; doc_d] "" "any" None None
           (MkDataFrame
              [MkRow "c.jpg" 300 500 (Some "bird") 1 2 3 4;
               MkRow "d.jpg" 3 500 (Some "cat") 5 6 7 8] None)).
  vm_compute. reflexivity.
Defined.

(** ** The label encoder *)

Lemma insert_class_elem (c x : class_name) (cs : list class_name) :
  x ∈ insert_class c cs <-> x = c \/ x ∈ cs.
Proof.
  induction cs as [|d cs IH]; simpl.
  - set_solver.
  - destruct (decide (c = d)) as [->|Hcd]; [set_solver|].
    destruct (class_ltb c d); [set_solver|].
    rewrite elem_of_cons, IH. set_solver.
Qed.

Lemma sorted_unique_elem (x : class_name) (ys : list class_name) :
  x ∈ sorted_unique ys <-> x ∈ ys.
Proof.
  unfold sorted_unique. induction ys as [|y ys IH]; simpl; [done|].
  rewrite insert_class_elem, IH. set_solver.
Qed.

Lemma index_of_Some (cs : list class_name) (c : class_name) :
  c ∈ cs <-> exists n, index_of cs c = Some n.
Proof.
  induction cs as [|d cs IH]; simpl.
  - split; [by intros ?%elem_of_nil | by intros [? ?]].
  - destruct (decide (c = d)) as [->|Hcd].
    + split; [eauto | set_solver].
    + rewrite elem_of_cons, IH. split.
      * intros [?|[n ->]]; [done | eauto].
      * intros [n Hn]. right. destruct (index_of cs c); [eauto | discriminate].
Qed.

Lemma encode_Ok (classes ys : list class_name) (codes : list Z) :
  encode classes ys = Ok codes <->
  Forall2 (fun y code => exists n, index_of classes y = Some n /\ code = Z.of_nat n)
          ys codes.
Proof.
  unfold encode. rewrite mapM_Ok.
  split; intros Hall; (eapply Forall2_impl; [exact Hall|]); intros y code; simpl;
    rewrite from_option_Ok; destruct (index_of classes y); simpl.
  - intros [= <-]. eauto.
  - discriminate.
  - by intros (n' & [= <-] & ->).
  - by intros (? & ? & _).
Qed.

(** The only exception [encode] raises is that for an unseen label. *)
Lemma encode_unseen (classes ys : list class_name) :
  (exists y, y ∈ ys /\ y ∉ classes) -> encode classes ys = Raise ValueError.
Proof.
  unfold encode. induction ys as [|y ys IH]; intros (x & Hx & Hnew).
  - by apply elem_of_nil in Hx.
  - rewrite mapM_cons. destruct (index_of classes y) as [n|] eqn:Hy; simpl.
    + rewrite IH; [reflexivity|]. exists x. split; [|assumption].
      apply elem_of_cons in Hx as [->|Hx]; [|assumption].
      exfalso. apply Hnew, index_of_Some. eauto.
    + reflexivity.
Qed.

(** Fitting on a column and encoding that column never fails. *)
Lemma fit_transform_total (ys : list class_name) :
  exists codes, fit_transform ys = Ok (codes, Some (sorted_unique ys)).
Proof.
  unfold fit_transform.
  destruct (mapM_total
              (fun y => from_option ValueError
                          (Z.of_nat <$> index_of (sorted_unique ys) y)) ys)
    as [codes Hcodes].
  - apply Forall_forall. intros y Hy.
    apply sorted_unique_elem, index_of_Some in Hy as [n ->]. simpl. eauto.
  - exists codes. unfold encode. by rewrite Hcodes.
Qed.

Lemma codes_positive (classes ys : list class_name) (codes : list Z) :
  encode classes ys = Ok codes ->
  length ((fun c => c + 1) <$> codes) = length ys /\
  Forall (fun l => 1 <= l) ((fun c => c + 1) <$> codes).
Proof.
  intros Hcodes. apply encode_Ok in Hcodes. split.
  - rewrite length_fmap. symmetry. by eapply Forall2_length.
  - apply Forall_fmap. eapply Forall2_Forall_r; [exact Hcodes|].
    apply Forall_forall. intros y _ code (n & _ & ->). simpl. lia.
Qed.

Lemma codes_lookup (classes ys : list class_name) (codes : list Z)
    (i : nat) (y : class_name) (l : Z) :
  encode classes ys = Ok codes ->
  ys !! i = Some y -> ((fun c => c + 1) <$> codes) !! i = Some l ->
  exists n, index_of classes y = Some n /\ l = Z.of_nat n + 1.
Proof.
  intros Hcodes Hy Hl. apply encode_Ok in Hcodes.
  rewrite list_lookup_fmap in Hl.
  destruct (codes !! i) as [code|] eqn:Hcode; [|discriminate].
  injection Hl as <-.
  destruct (Forall2_lookup_lr _ _ _ _ _ _ Hcodes Hy Hcode) as (n & Hn & ->).
  eauto.
Qed.

(** What a successful call has done with the encoder, split by split. *)
Lemma convert_labels (files : list Element) (image_dir image_set : string)
    (encoder encoder' : LabelEncoder) (dfr : DataFrame) :
  convert_annotations_to_df files image_dir image_set encoder = Ok (dfr, encoder') ->
  (image_set = "train" /\
   exists codes, encoder' = Some (sorted_unique (class <$> df_rows dfr)) /\
                 encode (sorted_unique (class <$> df_rows dfr))
                        (class <$> df_rows dfr) = Ok codes /\
                 df_labels dfr = Some ((fun c => c + 1) <$> codes)) \/
  ((image_set = "val" \/ image_set = "test") /\ encoder' = encoder /\
   exists classes codes, encoder = Some classes /\
                 encode classes (class <$> df_rows dfr) = Ok codes /\
                 df_labels dfr = Some ((fun c => c + 1) <$> codes)) \/
  (image_set <> "train" /\ image_set <> "val" /\ image_set <> "test" /\
   encoder' = encoder /\ df_labels dfr = None).
Proof.
  unfold convert_annotations_to_df. intros Hc.
  apply bind_Ok in Hc as (rows & Hrows & Hc). repeat case_decide.
  - left. split; [assumption|].
    apply bind_Ok in Hc as ([codes e] & Hfit & Hc). injection Hc as <- <-.
    unfold fit_transform in Hfit. apply bind_Ok in Hfit as (codes' & Hcodes & Hfit).
    injection Hfit as <- <-. simpl. eauto.
  - right; left. split; [assumption|].
    apply bind_Ok in Hc as (codes & Htr & Hc). injection Hc as <- <-.
    unfold transform in Htr. apply bind_Ok in Htr as (classes & Hcl & Hcodes).
    apply from_option_Ok in Hcl. simpl. eauto 10.
  - right; right. injection Hc as <- <-. simpl. tauto.
Qed.

(** C5. Whenever a flattening call returns a table with a label column, the
    column has one entry per row and every entry is at least 1; the column
    exists for the splits train, val and test. After a call on the training
    split, a call on val or test with the encoder it left behind leaves the
    encoder as it is and gives rows of equal class name the label they have
    in the training table. *)
Theorem label_ids_positive_and_stable
    (files : list Element) (image_dir image_set : string)
    (encoder encoder' : LabelEncoder) (dfr : DataFrame) :
  convert_annotations_to_df files image_dir image_set encoder = Ok (dfr, encoder') ->
  labels_positive dfr /\
  (image_set = "train" \/ image_set = "val" \/ image_set = "test" ->
   is_Some (df_labels dfr)) /\
  (image_set = "train" ->
   forall files2 image_dir2 image_set2 df2 encoder2,
     image_set2 = "val" \/ image_set2 = "test" ->
     convert_annotations_to_df files2 image_dir2 image_set2 encoder' = Ok (df2, encoder2) ->
     encoder2 = encoder' /\ same_class_same_label dfr df2).
Proof.
  intros Hc. split; [|split].
  - intros ls Hls.
    destruct (convert_labels _ _ _ _ _ _ Hc)
      as [(_ & codes & _ & Hcodes & Hl) | [(_ & _ & cs & codes & _ & Hcodes & Hl)
                                          | (_ & _ & _ & _ & Hl)]];
      rewrite Hl in Hls; try discriminate; injection Hls as <-;
      apply codes_positive in Hcodes as [Hlen Hpos];
      (split; [by rewrite Hlen, length_fmap | exact Hpos]).
  - intros Hset.
    destruct (convert_labels _ _ _ _ _ _ Hc)
      as [(_ & codes & _ & _ & ->) | [(_ & _ & cs & codes & _ & _ & ->)
                                     | (? & ? & ? & _)]]; [eauto | eauto |].
    destruct Hset as [?|[?|?]]; contradiction.
  - intros Htrain files2 image_dir2 image_set2 df2 encoder2 Hset2 Hc2.
    destruct (convert_labels _ _ _ _ _ _ Hc)
      as [(_ & codes & -> & Hcodes & Hl) | [([?|?] & _) | (? & _)]];
      try (subst; discriminate); try contradiction.
    destruct (convert_labels _ _ _ _ _ _ Hc2)
      as [(-> & _) | [(_ & -> & cs & codes2 & [= <-] & Hcodes2 & Hl2)
                     | (? & ? & ? & _)]];
      [destruct Hset2; discriminate | | destruct Hset2; contradiction].
    split; [reflexivity|].
    intros ls1 ls2 i j r1 r2 l1 l2 Hls1 Hls2 Hr1 Hl1 Hr2 Hl2' Hclass.
    rewrite Hl in Hls1. injection Hls1 as <-.
    rewrite Hl2 in Hls2. injection Hls2 as <-.
    destruct (codes_lookup _ _ _ i (class r1) l1 Hcodes) as (n1 & Hn1 & ->);
      [by rewrite list_lookup_fmap, Hr1 | assumption |].
    destruct (codes_lookup _ _ _ j (class r2) l2 Hcodes2) as (n2 & Hn2 & ->);
      [by rewrite list_lookup_fmap, Hr2 | assumption |].
    rewrite Hclass in Hn1. congruence.
Qed.

Lemma label_ids_positive_and_stable_witness :
  labels_positive df_a /\ is_Some (df_labels df_a) /\
  same_class_same_label df_a df_d.
Proof.
  destruct (label_ids_positive_and_stable [doc_a] "imgs" "train" None encoder_a df_a)
    as (Hpos & Hsome & Hstable).
  - vm_compute. reflexivity.
  - split; [exact Hpos|]. split; [apply Hsome; by left|].
    apply (Hstable eq_refl [doc_d] "imgs" "val" df_d encoder_a); [by left|].
    vm_compute. reflexivity.
Defined.

(** C8. After a call on the training split, a call on val or test whose
    documents yield a row of a class name that no row of the training table
    has raises the encoder's [ValueError]: the call returns no table. *)
Theorem unseen_class_is_fatal
    (files1 files2 : list Element) (image_dir1 image_dir2 image_set : string)
    (encoder0 encoder1 : LabelEncoder) (df1 : DataFrame) (rows2 : list Row) :
  convert_annotations_to_df files1 image_dir1 "train" encoder0 = Ok (df1, encoder1) ->
  image_set = "val" \/ image_set = "test" ->
  xml_rows files2 image_dir2 = Ok rows2 ->
  (exists r2, r2 ∈ rows2 /\ forall r1, r1 ∈ df_rows df1 -> class r1 <> class r2) ->
  convert_annotations_to_df files2 image_dir2 image_set encoder1 = Raise ValueError.
Proof.
  intros Hc Hset Hrows (r2 & Hr2 & Hnew).
  destruct (convert_labels _ _ _ _ _ _ Hc)
    as [(_ & codes & -> & _) | [([?|?] & _) | (? & _)]];
    try discriminate; try contradiction.
  unfold convert_annotations_to_df. rewrite Hrows. simpl.
  destruct (decide (image_set = "train")) as [->|_];
    [destruct Hset; discriminate|].
  destruct (decide (image_set = "val" \/ image_set = "test")); [|contradiction].
  unfold transform. simpl. rewrite encode_unseen; [reflexivity|].
  exists (class r2). split.
  - apply list_elem_of_fmap. eauto.
  - rewrite sorted_unique_elem, list_elem_of_fmap. intros (r1 & Hcl & Hr1).
    by apply (Hnew r1).
Qed.

Lemma unseen_class_is_fatal_witness :
  convert_annotations_to_df [doc_c] "imgs" "test" encoder_a = Raise ValueError.
Proof.
  apply (unseen_class_is_fatal [doc_a] [doc_c] "imgs" "imgs" "test" None encoder_a df_a
           [MkRow "imgs/c.jpg" 300 500 (Some "bird") 1 2 3 4]).
  - vm_compute. reflexivity.
  - by right.
  - vm_compute. reflexivity.
  - exists (MkRow "imgs/c.jpg" 300 500 (Some "bird") 1 2 3 4). split.
    + apply list_elem_of_singleton. reflexivity.
    + intros r1 Hr1. simpl in Hr1.
      apply elem_of_cons in Hr1 as [->|Hr1]; [discriminate|].
      apply list_elem_of_singleton in Hr1 as ->. discriminate.
Defined.

(** C9. For a split other than train, val and test the label step is
    skipped: whenever the documents yield rows, the call returns these rows
    without a label column and leaves the encoder alone, fitted or not; it
    raises only what reading the documents raises; so it succeeds wherever a
    call on any split does, with the same rows. *)
Theorem other_split_has_no_labels
    (files : list Element) (image_dir image_set : string) (encoder : LabelEncoder) :
  image_set <> "train" -> image_set <> "val" -> image_set <> "test" ->
  (forall rows, xml_rows files image_dir = Ok rows ->
     convert_annotations_to_df files image_dir image_set encoder
     = Ok (MkDataFrame rows None, encoder)) /\
  (forall e, convert_annotations_to_df files image_dir image_set encoder = Raise e ->
     xml_rows files image_dir = Raise e) /\
  (forall image_set' encoder0 encoder1 dfr',
     convert_annotations_to_df files image_dir image_set' encoder0 = Ok (dfr', encoder1) ->
     convert_annotations_to_df files image_dir image_set encoder
     = Ok (MkDataFrame (df_rows dfr') None, encoder)).
Proof.
  intros Htrain Hval Htest.
  assert (Hrows : forall rows, xml_rows files image_dir = Ok rows ->
            convert_annotations_to_df files image_dir image_set encoder
            = Ok (MkDataFrame rows None, encoder)).
  { intros rows Hrows. unfold convert_annotations_to_df. rewrite Hrows. simpl.
    repeat case_decide; try contradiction; [tauto | reflexivity]. }
  split; [exact Hrows|]. split.
  - intros e He. destruct (xml_rows files image_dir) as [rows|e'] eqn:Hx.
    + rewrite (Hrows rows eq_refl) in He. discriminate.
    + unfold convert_annotations_to_df in He. rewrite Hx in He.
      simpl in He. by injection He as ->.
  - intros image_set' encoder0 encoder1 dfr' Hc. apply convert_rows in Hc.
    by apply Hrows.
Qed.

Lemma other_split_has_no_labels_witness :
  convert_annotations_to_df [doc_a; doc_b] "imgs" "trainval" None
  = Ok (MkDataFrame (df_rows df_a) None, None).
Proof.
  destruct (other_split_has_no_labels [doc_a; doc_b] "imgs" "trainval" None)
    as (Hrows & _ & _); [discriminate | discriminate | discriminate |].
  apply Hrows. vm_compute. reflexivity.
Defined.

(** ** The accessor *)

Lemma select_mask_filter {A : Type} (f : A -> bool) (l : list A) :
  select (f <$> l) l = filter (fun x => f x) l.
Proof.
  induction l as [|x l IH]; [reflexivity|].
  rewrite filter_cons, <- IH. simpl. by destruct (f x).
Qed.

Lemma select_mask_length {A B : Type} (f : A -> bool) (l : list A) (k : list B) :
  length k = length l -> length (select (f <$> l) k) = length (select (f <$> l) l).
Proof.
  revert k. induction l as [|x l IH]; intros [|y k] Hlen;
    try discriminate; [reflexivity|].
  injection Hlen as Hlen. apply IH in Hlen. simpl. destruct (f x); simpl; [f_equal|]; exact Hlen.
Qed.

Lemma select_mask_zip {A B : Type} (f : A -> bool) (l : list A) (k : list B) :
  zip (select (f <$> l) l) (select (f <$> l) k)
  = filter (fun xy => f xy.1) (zip l k).
Proof.
  revert k. induction l as [|x l IH]; intros [|y k]; try reflexivity.
  - simpl. by destruct (select _ l), (f x).
  - change (zip (x :: l) (y :: k)) with ((x, y) :: zip l k).
    rewrite filter_cons, <- IH. simpl. by destruct (f x).
Qed.

Lemma filter_filename (image_id : string) (rows : list Row) :
  filter (fun r => bool_decide (filename r = image_id)) rows
  = filter (fun r => filename r = image_id) rows.
Proof.
  apply list_filter_iff. intros r. by rewrite bool_decide_spec.
Qed.


(** What [__getitem__] holds when it calls the transform. *)
Lemma prepare_Ok `{Cv2} (self : PascalDataset) (index : Z) (p : Prepared) :
  prepare self index = Ok p ->
  exists image_id im ls,
    array_get (image_ids self) index = Ok image_id /\
    imread image_id = Some im /\
    df_labels (df self) = Some ls /\
    p_im p = COLOR_BGR2RGB im /\
    p_f_boxes p
    = filter (fun bbox => is_bbox_valid bbox) (row_box <$> records_of (df self) image_id) /\
    p_class_labels p
    = select ((fun r => bool_decide (filename r = image_id)) <$> df_rows (df self)) ls /\
    p_area p = (fun r => box_area (row_box r)) <$> records_of (df self) image_id /\
    p_iscrowd p = replicate (length (records_of (df self) image_id)) 0.
Proof.
  unfold prepare. intros Hp.
  apply bind_Ok in Hp as (image_id & Hid & Hp).
  apply bind_Ok in Hp as (im & Him & Hp).
  apply bind_Ok in Hp as (class_labels & Hls & Hp).
  apply fmap_Ok in Him as (im0 & Him0 & ->). apply from_option_Ok in Him0.
  apply fmap_Ok in Hls as (ls & Hls & ->). apply from_option_Ok in Hls.
  injection Hp as <-. simpl.
  rewrite select_mask_filter, filter_filename. fold (records_of (df self) image_id).
  exists image_id, im0, ls. repeat split; try assumption.
  by rewrite <- list_fmap_compose.
Qed.

(** A filter that keeps the length keeps the list. *)
Lemma filter_all {A : Type} (P : A -> Prop) `{forall x, Decision (P x)} (l : list A) :
  length (filter P l) = length l -> filter P l = l.
Proof.
  induction l as [|x l IH]; [reflexivity|].
  rewrite filter_cons. destruct (decide (P x)); cbn [length]; intros Heq.
  - f_equal. apply IH. by injection Heq.
  - pose proof (length_filter P l). lia.
Qed.


(** C2, as the code has it. When [__getitem__] reaches the transform, the
    boxes it passes are the boxes of the image's rows whose four raw
    coordinates all lie in [0, 1], in row order; the class labels it passes
    are the labels of all the image's rows, and the area and iscrowd
    sequences have one entry per row of the image as well: only the boxes
    are filtered. *)
Theorem prefilter_drops_boxes_only `{Cv2}
    (self : PascalDataset) (index : Z) (p : Prepared) :
  df_wf (df self) ->
  prepare self index = Ok p ->
  exists image_id ls,
    array_get (image_ids self) index = Ok image_id /\
    df_labels (df self) = Some ls /\
    getitem self index
    = (tran ← tfms self (p_im p) (p_f_boxes p) (p_class_labels p); finish index p tran) /\
    p_f_boxes p
    = filter (fun bbox => is_bbox_valid bbox) (row_box <$> records_of (df self) image_id) /\
    zip (records_of (df self) image_id) (p_class_labels p)
    = filter (fun rl => filename rl.1 = image_id) (zip (df_rows (df self)) ls) /\
    length (p_class_labels p) = length (records_of (df self) image_id) /\
    length (p_area p) = length (records_of (df self) image_id) /\
    length (p_iscrowd p) = length (records_of (df self) image_id).
Proof.
  intros Hwf Hp.
  destruct (prepare_Ok _ _ _ Hp)
    as (image_id & im & ls & Hid & _ & Hls & _ & Hboxes & Hlabels & Harea & Hcrowd).
  exists image_id, ls. split; [assumption|]. split; [assumption|]. split.
  { unfold getitem. by rewrite Hp. }
  split; [assumption|].
  assert (Hrec : records_of (df self) image_id
                 = select ((fun r => bool_decide (filename r = image_id))
                             <$> df_rows (df self)) (df_rows (df self))).
  { unfold records_of. by rewrite select_mask_filter, filter_filename. }
  split; [|split; [|split]].
  - rewrite Hlabels, Hrec, select_mask_zip. apply list_filter_iff.
    intros [r l]. simpl. by rewrite bool_decide_spec.
  - rewrite Hlabels, Hrec. apply select_mask_length. by apply Hwf.
  - by rewrite Harea, length_fmap.
  - by rewrite Hcrowd, length_replicate.
Qed.

Lemma prefilter_drops_boxes_only_witness :
  exists p,
    @prepare unit_cv (init df_mixed drop_all) 0 = Ok p /\
    p_f_boxes p = [(0, 0, 1, 1)] /\
    p_class_labels p = [1; 2] /\
    length (p_area p) = 2%nat /\ length (p_iscrowd p) = 2%nat.
Proof.
  destruct (@prepare unit_cv (init df_mixed drop_all) 0) as [p|e] eqn:Hp;
    [|vm_compute in Hp; discriminate].
  destruct (@prefilter_drops_boxes_only unit_cv (init df_mixed drop_all) 0 p)
    as (image_id & ls & Hid & Hls & _ & Hboxes & _ & _ & Harea & Hcrowd).
  - intros ls [= <-]. reflexivity.
  - exact Hp.
  - exists p. vm_compute in Hid. injection Hid as <-.
    split; [reflexivity|]. split; [exact Hboxes|].
    split; [|split; [exact Harea | exact Hcrowd]].
    vm_compute in Hp. by injection Hp as <-.
Defined.

(** C2 as stated fails: the labels handed to the transform are not those of
    the rows whose box passed the filter. *)
Lemma prefilter_labels_not_in_lockstep :
  ~ (forall (cv : Cv2) (self : @PascalDataset cv) (index : Z) (p : @Prepared cv)
            (image_id : string) (ls : list Z),
       prepare self index = Ok p ->
       array_get (image_ids self) index = Ok image_id ->
       df_labels (df self) = Some ls ->
       p_class_labels p
       = (filter (fun rl => filename rl.1 = image_id /\ is_bbox_valid (row_box rl.1))
                 (zip (df_rows (df self)) ls)).*2).
Proof.
  intros Hclaim.
  specialize (Hclaim unit_cv (init df_mixed drop_all) 0
                (@MkPrepared unit_cv tt [(0, 0, 1, 1)] [1; 2]
                   [PyFloat.f32_of_int 1; PyFloat.f32_of_int 1600] [0; 0])
                "a.jpg" [1; 2]).
  vm_compute in Hclaim. specialize (Hclaim eq_refl eq_refl eq_refl). discriminate.
Qed.







(** * Further properties of the code *)

(** ** Shapes and values of the clamp *)

Lemma clamp_bbox_bad_shape (bbox : list PyFloat.float) :
  length bbox <> 4%nat -> length bbox <> 5%nat -> clamp_bbox bbox = Raise ValueError.
Proof.
  intros H4 H5. destruct bbox as [|a [|b [|c [|d [|k [|]]]]]]; simpl in *;
    try reflexivity; congruence.
Qed.

Lemma clamp_bbox_raises (bbox : list PyFloat.float) (e : exn) :
  clamp_bbox bbox = Raise e ->
  e = ValueError /\ length bbox <> 4%nat /\ length bbox <> 5%nat.
Proof.
  destruct bbox as [|a [|b [|c [|d [|k [|]]]]]]; simpl;
    intros [= <-]; repeat split; discriminate.
Qed.

(** X1. [clamp_bbox_coordinates] raises [ValueError] as soon as one box has
    a length other than 4 and 5, wherever it stands in the sequence, and it
    raises nothing else: a failure means that such a box is present. *)
Theorem clamp_raises_on_other_shapes (bboxes : list (list PyFloat.float)) :
  (Exists (fun bbox => length bbox <> 4%nat /\ length bbox <> 5%nat) bboxes ->
   clamp_bbox_coordinates bboxes = Raise ValueError) /\
  (forall e, clamp_bbox_coordinates bboxes = Raise e ->
     e = ValueError /\
     Exists (fun bbox => length bbox <> 4%nat /\ length bbox <> 5%nat) bboxes).
Proof.
  unfold clamp_bbox_coordinates. induction bboxes as [|bbox bboxes [IH1 IH2]].
  - split; [by intros ?%Exists_nil | discriminate].
  - rewrite mapM_cons. destruct (clamp_bbox bbox) as [out|e0] eqn:Hb; simpl.
    + assert (Hshape : length bbox = 4%nat \/ length bbox = 5%nat).
      { destruct (decide (length bbox = 4%nat)); [by left|].
        destruct (decide (length bbox = 5%nat)); [by right|].
        rewrite clamp_bbox_bad_shape in Hb by assumption. discriminate. }
      split.
      * intros [[H4 H5]|Hex]%Exists_cons; [destruct Hshape; contradiction|].
        by rewrite (IH1 Hex).
      * intros e He. destruct (mapM clamp_bbox bboxes) as [outs|e1] eqn:Hrest;
          [discriminate|]. simpl in He. injection He as <-.
        destruct (IH2 e1 eq_refl) as [-> Hex]. split; [reflexivity|].
        by apply Exists_cons_tl.
    + apply clamp_bbox_raises in Hb as (-> & H4 & H5). split.
      * reflexivity.
      * intros e [= <-]. split; [reflexivity|]. by apply Exists_cons_hd.
Qed.

Lemma xcompare_refl (a : PyFloat.xreal) : PyFloat.xcompare a a = Eq.
Proof. destruct a; simpl; try reflexivity. apply Z.compare_refl. Qed.

Lemma clamp01_by_order (v : PyFloat.float) :
  (PyFloat.ltb PyFloat.one v = true /\ clamp01 v = PyFloat.one) \/
  (PyFloat.ltb PyFloat.one v = false /\ PyFloat.gtb v PyFloat.zero = false /\
   clamp01 v = PyFloat.zero) \/
  (PyFloat.ltb PyFloat.one v = false /\ PyFloat.gtb v PyFloat.zero = true /\
   clamp01 v = v).
Proof.
  unfold clamp01, PyFloat.py_min.
  destruct (PyFloat.ltb PyFloat.one v) eqn:Hone.
  - left. by split.
  - right. unfold PyFloat.py_max.
    destruct (PyFloat.gtb v PyFloat.zero) eqn:Hzero; [right | left]; by repeat split.
Qed.

Lemma ltb_not_leb (x y : PyFloat.float) :
  PyFloat.ltb y x = true -> PyFloat.leb x y = false.
Proof.
  unfold PyFloat.ltb, PyFloat.leb. rewrite (compare_antisym x y).
  by destruct (PyFloat.compare x y) as [[]|].
Qed.

Lemma leb_not_gtb_eq (x y : PyFloat.float) :
  PyFloat.leb y x = true -> PyFloat.gtb x y = false -> PyFloat.compare y x = Some Eq.
Proof.
  unfold PyFloat.gtb, PyFloat.leb. rewrite (compare_antisym x y).
  by destruct (PyFloat.compare x y) as [[]|].
Qed.

Lemma leb_compare_refl (x y : PyFloat.float) :
  PyFloat.leb y x = true -> PyFloat.compare x x = Some Eq.
Proof.
  unfold PyFloat.leb, PyFloat.compare.
  destruct (PyFloat.to_xreal y), (PyFloat.to_xreal x); try discriminate.
  intros _. by rewrite xcompare_refl.
Qed.

(** X2. The clamp of one coordinate leaves a value of the unit interval
    equal in value (a negative zero becomes [0.0]), sends every other value,
    NaN and the infinities included, to [0.0] or [1.0], and never returns
    NaN. *)
Theorem clamp01_fixes_unit_interval (v : PyFloat.float) :
  (in_unit v = true -> PyFloat.compare (clamp01 v) v = Some Eq) /\
  (in_unit v = false -> clamp01 v = PyFloat.zero \/ clamp01 v = PyFloat.one) /\
  clamp01 v <> S754_nan.
Proof.
  split; [|split].
  - unfold in_unit, float_unit01. intros [H0 H1]%andb_true_iff.
    destruct (clamp01_by_order v) as [(Ho & _) | [(_ & Hz & ->) | (_ & _ & ->)]].
    + apply ltb_not_leb in Ho. congruence.
    + by apply leb_not_gtb_eq.
    + by apply (leb_compare_refl v PyFloat.zero).
  - intros Hout. destruct (clamp01_cases v) as [?|[?|(Hv & Hz & Ho)]]; auto.
    exfalso. unfold in_unit, float_unit01 in Hout.
    rewrite (gtb_leb _ _ Hz) in Hout.
    rewrite (not_ltb_leb v PyFloat.one PyFloat.zero PyFloat.zero) in Hout; auto.
    discriminate.
  - pose proof (clamp01_in_unit v) as Hin. intros Hnan. rewrite Hnan in Hin.
    discriminate.
Qed.
(** ** Indexing the image ids *)

Lemma array_get_out_of_range {A : Type} (a : list A) (index : Z) :
  index < - Z.of_nat (length a) \/ Z.of_nat (length a) <= index ->
  array_get a index = Raise IndexError.
Proof.
  unfold array_get. intros Hout.
  destruct ((0 <=? index) && (index <? Z.of_nat (length a))) eqn:H1; [lia|].
  destruct ((- Z.of_nat (length a) <=? index) && (index <? 0)) eqn:H2; [lia|].
  reflexivity.
Qed.


Lemma array_get_negative {A : Type} (a : list A) (index : Z) :
  - Z.of_nat (length a) <= index < 0 ->
  array_get a index = array_get a (Z.of_nat (length a) + index).
Proof.
  unfold array_get. intros Hin.
  destruct ((0 <=? index) && (index <? Z.of_nat (length a))) eqn:H1; [lia|].
  destruct ((- Z.of_nat (length a) <=? index) && (index <? 0)) eqn:H2; [|lia].
  destruct ((0 <=? Z.of_nat (length a) + index)
            && (Z.of_nat (length a) + index <? Z.of_nat (length a))) eqn:H3; [|lia].
  reflexivity.
Qed.

Lemma array_get_elem {A : Type} (a : list A) (index : Z) (x : A) :
  array_get a index = Ok x -> x ∈ a.
Proof.
  unfold array_get. intros Hx.
  destruct (_ && _); [|destruct (_ && _); [|discriminate]];
    apply from_option_Ok in Hx; by eapply list_elem_of_lookup_2.
Qed.

(** X3. [__getitem__] raises [IndexError] for an index below [-len] or
    from [len] on; a negative index in range selects the image of
    [len + index]; and a returned sample comes from an index in range and
    carries that very index, negative or not, both as the third component
    and as [image_id] of the target. *)
Theorem getitem_index_semantics `{Cv2} (self : PascalDataset) (index : Z) :
  (index < - Z.of_nat (len self) \/ Z.of_nat (len self) <= index ->
   getitem self index = Raise IndexError) /\
  (- Z.of_nat (len self) <= index < 0 ->
   prepare self index = prepare self (Z.of_nat (len self) + index)) /\
  (forall im target image_idx,
     getitem self index = Ok (Sample im target image_idx) ->
     - Z.of_nat (len self) <= index < Z.of_nat (len self) /\
     image_idx = [index] /\ t_image_id target = [index]).
Proof.
  unfold len. split; [|split].
  - intros Hout. unfold getitem, prepare.
    by rewrite (array_get_out_of_range _ _ Hout).
  - intros Hneg. unfold prepare. by rewrite (array_get_negative _ _ Hneg).
  - intros im target image_idx Hget. split.
    + destruct (decide (- Z.of_nat (length (image_ids self)) <= index
                        < Z.of_nat (length (image_ids self)))) as [|Hout]; [assumption|].
      unfold getitem, prepare in Hget.
      rewrite array_get_out_of_range in Hget by lia. discriminate.
    + unfold getitem in Hget.
      apply bind_Ok in Hget as (p & _ & Hget).
      apply bind_Ok in Hget as (tran & _ & Hfin).
      unfold finish in Hfin. destruct (negb _); [discriminate|].
      apply bind_Ok in Hfin as (boxes & _ & Hfin). by injection Hfin as _ <- <-.
Qed.

(** ** The anatomy of a returned sample *)

Lemma getitem_Sample `{Cv2} (self : PascalDataset) (index : Z)
    (im : image) (target : Target) (image_idx : list Z) :
  getitem self index = Ok (Sample im target image_idx) ->
  exists p tran boxes,
    prepare self index = Ok p /\
    tfms self (p_im p) (p_f_boxes p) (p_class_labels p) = Ok tran /\
    filter (fun bbox => is_bbox_valid bbox) (tr_bboxes tran) = tr_bboxes tran /\
    clamp_bbox_coordinates (tensor_row <$> tr_bboxes tran) = Ok boxes /\
    im = tr_image tran /\ image_idx = [index] /\
    target = MkTarget [index] boxes (tr_class_labels tran) (p_area p) (p_iscrowd p).
Proof.
  unfold getitem. intros Hget.
  apply bind_Ok in Hget as (p & Hp & Hget).
  apply bind_Ok in Hget as (tran & Htran & Hfin).
  unfold finish in Hfin.
  destruct (length _ =? length _)%nat eqn:Hlen; [|discriminate].
  apply Nat.eqb_eq, filter_all in Hlen. rewrite Hlen in Hfin. cbn [negb] in Hfin.
  apply bind_Ok in Hfin as (boxes & Hboxes & Hfin).
  injection Hfin as <- <- <-. exists p, tran, boxes. by repeat split.
Qed.

Lemma clamped_in_unit (bbox out : list PyFloat.float) :
  length bbox = 4%nat -> clamped bbox out ->
  length out = 4%nat /\ Forall (fun x => in_unit x = true) out.
Proof.
  intros H4 (Hlen & Hcoord & _). rewrite H4 in Hlen. split; [assumption|].
  apply Forall_lookup. intros i y Hy.
  assert (Hi : (i < 4)%nat) by (apply lookup_lt_Some in Hy; lia).
  destruct (lookup_lt_is_Some_2 bbox i) as [x Hx]; [lia|].
  destruct (Hcoord i x Hi Hx) as [Ho Hin]. congruence.
Qed.

Lemma records_of_nonempty (dataframe : DataFrame) (image_id : string) :
  image_id ∈ unique (filename <$> df_rows dataframe) ->
  records_of dataframe image_id <> [].
Proof.
  unfold unique. rewrite unique_from_elem, list_elem_of_fmap.
  intros [(r & -> & Hr) _] Hnil.
  assert (Hin : r ∈ records_of dataframe (filename r)).
  { unfold records_of. by apply list_elem_of_filter. }
  rewrite Hnil in Hin. by apply elem_of_nil in Hin.
Qed.

(** X4. A sample is returned only if every box the transform returned is
    valid; its target then has one box per returned box, each of exactly four
    coordinates that all lie in the unit interval, and clamping these boxes
    once more changes nothing. *)
Theorem sample_boxes_are_unit_boxes `{Cv2} (self : PascalDataset) (index : Z)
    (im : image) (target : Target) (image_idx : list Z) :
  getitem self index = Ok (Sample im target image_idx) ->
  exists p tran,
    prepare self index = Ok p /\
    tfms self (p_im p) (p_f_boxes p) (p_class_labels p) = Ok tran /\
    Forall (fun bbox => is_bbox_valid bbox = true) (tr_bboxes tran) /\
    length (t_boxes target) = length (tr_bboxes tran) /\
    Forall (fun box => length box = 4%nat /\ Forall (fun x => in_unit x = true) box)
           (t_boxes target) /\
    clamp_bbox_coordinates (t_boxes target) = Ok (t_boxes target).
Proof.
  intros Hget.
  destruct (getitem_Sample _ _ _ _ _ Hget)
    as (p & tran & boxes & Hp & Htran & Hvalid & Hboxes & _ & _ & ->).
  exists p, tran. simpl. split; [assumption|]. split; [assumption|].
  destruct (clamp_all_spec (tensor_row <$> tr_bboxes tran))
    as (out & Hout & Hidem & Hclamped).
  { apply Forall_fmap, Forall_forall. intros [[[x0 y0] x1] y1] _. by left. }
  rewrite Hboxes in Hout. injection Hout as <-.
  split; [|split; [|split]].
  - rewrite <- Hvalid. apply Forall_forall. intros bbox Hb.
    apply list_elem_of_filter in Hb as [Hb _]. by apply Is_true_true.
  - apply Forall2_length in Hclamped. by rewrite length_fmap in Hclamped.
  - eapply Forall2_Forall_r; [exact Hclamped|].
    apply Forall_fmap, Forall_forall. intros [[[x0 y0] x1] y1] _ out.
    by apply clamped_in_unit.
  - exact Hidem.
Qed.

Lemma sample_boxes_are_unit_boxes_witness :
  exists target,
    @getitem unit_cv (init df_mixed keep_all) 0 = Ok (@Sample unit_cv tt target [0]) /\
    t_boxes target = [[PyFloat.zero; PyFloat.zero; PyFloat.one; PyFloat.one]] /\
    Forall (fun box => length box = 4%nat /\ Forall (fun x => in_unit x = true) box)
           (t_boxes target).
Proof.
  exists (MkTarget [0] [[PyFloat.zero; PyFloat.zero; PyFloat.one; PyFloat.one]] [1; 2]
            [PyFloat.f32_of_int 1; PyFloat.f32_of_int 1600] [0; 0]).
  assert (Hget : @getitem unit_cv (init df_mixed keep_all) 0
                 = Ok (@Sample unit_cv tt
                         (MkTarget [0]
                            [[PyFloat.zero; PyFloat.zero; PyFloat.one; PyFloat.one]]
                            [1; 2] [PyFloat.f32_of_int 1; PyFloat.f32_of_int 1600]
                            [0; 0]) [0])) by (vm_compute; reflexivity).
  split; [exact Hget|]. split; [reflexivity|].
  destruct (@sample_boxes_are_unit_boxes unit_cv _ _ _ _ _ Hget)
    as (p & tran & _ & _ & _ & _ & Hboxes & _).
  exact Hboxes.
Defined.

(** X5. In a returned sample the image has at least one row in the table,
    [iscrowd] is a sequence of zeros with one entry per row of the image, and
    [area] has as many entries as [iscrowd]. *)
Theorem sample_iscrowd_zero_per_row `{Cv2}
    (dataframe : DataFrame) (transforms : Transform) (index : Z)
    (im : image) (target : Target) (image_idx : list Z) :
  getitem (init dataframe transforms) index = Ok (Sample im target image_idx) ->
  exists image_id,
    array_get (unique (filename <$> df_rows dataframe)) index = Ok image_id /\
    records_of dataframe image_id <> [] /\
    t_iscrowd target = replicate (length (records_of dataframe image_id)) 0 /\
    length (t_area target) = length (t_iscrowd target).
Proof.
  intros Hget.
  destruct (getitem_Sample _ _ _ _ _ Hget)
    as (p & tran & boxes & Hp & _ & _ & _ & _ & _ & ->).
  destruct (prepare_Ok _ _ _ Hp)
    as (image_id & _ & _ & Hid & _ & _ & _ & _ & _ & Harea & Hcrowd).
  simpl in Hid, Harea, Hcrowd. exists image_id. simpl.
  split; [assumption|]. split.
  - apply records_of_nonempty. by eapply array_get_elem.
  - rewrite Hcrowd, Harea, length_fmap, length_replicate. by split.
Qed.

Lemma sample_iscrowd_zero_per_row_witness :
  exists target,
    @getitem unit_cv (init df_mixed keep_all) (-1)
    = Ok (@Sample unit_cv tt target [-1]) /\
    t_iscrowd target = [0; 0] /\ length (t_area target) = 2%nat.
Proof.
  exists (MkTarget [-1] [[PyFloat.zero; PyFloat.zero; PyFloat.one; PyFloat.one]] [1; 2]
            [PyFloat.f32_of_int 1; PyFloat.f32_of_int 1600] [0; 0]).
  assert (Hget : @getitem unit_cv (init df_mixed keep_all) (-1)
                 = Ok (@Sample unit_cv tt
                         (MkTarget [-1]
                            [[PyFloat.zero; PyFloat.zero; PyFloat.one; PyFloat.one]]
                            [1; 2] [PyFloat.f32_of_int 1; PyFloat.f32_of_int 1600]
                            [0; 0]) [-1])) by (vm_compute; reflexivity).
  split; [exact Hget|].
  destruct (@sample_iscrowd_zero_per_row unit_cv _ _ _ _ _ _ Hget)
    as (image_id & Hid & _ & Hcrowd & Hlen).
  vm_compute in Hid. injection Hid as <-. split; [exact Hcrowd | exact Hlen].
Defined.

(** ** Failures before the transform *)







(** ** The filter before the transform, on integer boxes *)

Lemma Z_in_unit (x : Z) : in_unit x = true <-> x = 0 \/ x = 1.
Proof. unfold in_unit, Z_unit01. lia. Qed.

Lemma ibox_valid (b : ibox) :
  is_bbox_valid b = true <->
  (b.1.1.1 = 0 \/ b.1.1.1 = 1) /\ (b.1.1.2 = 0 \/ b.1.1.2 = 1) /\
  (b.1.2 = 0 \/ b.1.2 = 1) /\ (b.2 = 0 \/ b.2 = 1).
Proof.
  destruct b as [[[x0 y0] x1] y1]. unfold is_bbox_valid. simpl.
  rewrite !andb_true_iff, !Z_in_unit. tauto.
Qed.

(** X8. The filter before the transform runs on the integer coordinates
    of the table, so every box that reaches the transform has all four
    coordinates in {0, 1}; if the rows of the image are proper boxes
    ([xmin < xmax], [ymin < ymax]) the only such box is (0, 0, 1, 1); and if
    every row has [xmax] or [ymax] above 1 the transform gets no box at all,
    while it still gets one label per row. *)
Theorem prefilter_keeps_only_zero_one_boxes `{Cv2}
    (self : PascalDataset) (index : Z) (p : Prepared) (image_id : string) :
  prepare self index = Ok p ->
  array_get (image_ids self) index = Ok image_id ->
  Forall (fun b : ibox =>
            (b.1.1.1 = 0 \/ b.1.1.1 = 1) /\ (b.1.1.2 = 0 \/ b.1.1.2 = 1) /\
            (b.1.2 = 0 \/ b.1.2 = 1) /\ (b.2 = 0 \/ b.2 = 1)) (p_f_boxes p) /\
  (Forall (fun r => xmin r < xmax r /\ ymin r < ymax r) (records_of (df self) image_id) ->
   Forall (fun b : ibox => b = (0, 0, 1, 1)) (p_f_boxes p)) /\
  (Forall (fun r => 1 < xmax r \/ 1 < ymax r) (records_of (df self) image_id) ->
   p_f_boxes p = [] /\
   (df_wf (df self) ->
    length (p_class_labels p) = length (records_of (df self) image_id))).
Proof.
  intros Hp Hid.
  destruct (prepare_Ok _ _ _ Hp)
    as (image_id' & _ & ls & Hid' & _ & Hls & _ & Hboxes & Hlabels & Harea & _).
  rewrite Hid in Hid'. injection Hid' as <-. rewrite Hboxes.
  split; [|split].
  - apply Forall_forall. intros b Hb. apply list_elem_of_filter in Hb as [Hb _].
    by apply ibox_valid, Is_true_true.
  - intros Hproper. apply Forall_forall. intros b Hb.
    apply list_elem_of_filter in Hb as [Hvalid Hb].
    apply Is_true_true, ibox_valid in Hvalid.
    apply list_elem_of_fmap in Hb as (r & -> & Hr).
    rewrite Forall_forall in Hproper. specialize (Hproper r Hr).
    unfold row_box in *. simpl in Hvalid. f_equal; [f_equal; [f_equal|]|]; lia.
  - intros Hbig. split.
    + destruct (filter _ _) as [|b bs] eqn:Hfilter; [reflexivity|]. exfalso.
      assert (Hb : b ∈ filter (fun bbox : ibox => is_bbox_valid bbox)
                        (row_box <$> records_of (df self) image_id))
        by (rewrite Hfilter; apply list_elem_of_here).
      apply list_elem_of_filter in Hb as [Hvalid Hb].
      apply Is_true_true, ibox_valid in Hvalid.
      apply list_elem_of_fmap in Hb as (r & -> & Hr).
      rewrite Forall_forall in Hbig. specialize (Hbig r Hr).
      unfold row_box in *. simpl in Hvalid. lia.
    + intros Hwf. rewrite Hlabels.
      rewrite (select_mask_length _ (df_rows (df self)) ls) by (by apply Hwf).
      unfold records_of. by rewrite select_mask_filter, filter_filename.
Qed.

Lemma prefilter_keeps_only_zero_one_boxes_witness :
  exists p,
    @prepare unit_cv pixel_dataset 0 = Ok p /\
    p_f_boxes p = [] /\ length (p_class_labels p) = 2%nat.
Proof.
  destruct (@prepare unit_cv pixel_dataset 0) as [p|e] eqn:Hp;
    [|vm_compute in Hp; discriminate].
  destruct (@prefilter_keeps_only_zero_one_boxes unit_cv pixel_dataset 0 p "imgs/a.jpg" Hp)
    as (_ & _ & Hbig); [vm_compute; reflexivity|].
  destruct Hbig as [Hnil Hlen].
  - vm_compute. repeat constructor.
  - exists p. split; [reflexivity|]. split; [exact Hnil|].
    rewrite Hlen; [vm_compute; reflexivity|]. intros ls [= <-]. reflexivity.
Defined.

(** ** The order of the image ids *)

Lemma unique_from_union (s1 s2 : gset string) (l : list string) :
  unique_from (s1 ∪ s2) l = filter (fun x => x ∉ s1) (unique_from s2 l).
Proof.
  revert s2. induction l as [|x l IH]; intros s2; simpl; [reflexivity|].
  destruct (decide (x ∈ s2)) as [Hx2|Hx2].
  - rewrite decide_True by set_solver. apply IH.
  - rewrite filter_cons. destruct (decide (x ∈ s1)) as [Hx1|Hx1].
    + rewrite decide_True by set_solver. rewrite decide_False by auto.
      rewrite <- IH. f_equal. set_solver.
    + rewrite decide_False by set_solver. rewrite decide_True by assumption.
      f_equal. rewrite <- IH. f_equal. set_solver.
Qed.

Lemma unique_from_sublist (seen : gset string) (l : list string) :
  unique_from seen l `sublist_of` l.
Proof.
  revert seen. induction l as [|x l IH]; intros seen; simpl; [constructor|].
  destruct (decide (x ∈ seen)); [apply sublist_cons | apply sublist_skip]; apply IH.
Qed.

Lemma unique_from_NoDup_id (seen : gset string) (l : list string) :
  NoDup l -> (forall x, x ∈ l -> x ∉ seen) -> unique_from seen l = l.
Proof.
  revert seen. induction l as [|x l IH]; intros seen Hnd Hseen; simpl; [reflexivity|].
  apply NoDup_cons in Hnd as [Hx Hnd].
  rewrite decide_False by (apply Hseen; left). f_equal. apply IH; [assumption|].
  intros y Hy. specialize (Hseen y (list_elem_of_further _ _ _ Hy)). set_solver.
Qed.

(** X9. The image ids follow the rows: the id of the first row comes
    first, followed by the ids of the remaining rows without it; the ids are
    a subsequence of the [filename] column; and when no file name occurs
    twice they are that column, so index [i] is row [i]. *)
Theorem image_ids_in_first_row_order `{Cv2}
    (r : Row) (rows : list Row) (labels labels' : option (list Z))
    (transforms : Transform) :
  image_ids (init (MkDataFrame (r :: rows) labels) transforms)
  = filename r :: filter (fun f => f <> filename r)
                         (image_ids (init (MkDataFrame rows labels') transforms)) /\
  image_ids (init (MkDataFrame rows labels) transforms) `sublist_of` (filename <$> rows) /\
  (NoDup (filename <$> rows) ->
   image_ids (init (MkDataFrame rows labels) transforms) = filename <$> rows).
Proof.
  unfold init, unique. simpl. split; [|split].
  - f_equal. rewrite unique_from_union. apply list_filter_iff. set_solver.
  - apply unique_from_sublist.
  - intros Hnd. apply unique_from_NoDup_id; [assumption | set_solver].
Qed.

(** ** Documents without objects *)

Lemma bind_fmap {A B C : Type} (f : A -> B) (k : B -> result C) (r : result A) :
  (x ← r; k (f x)) = (f <$> r) ≫= k.
Proof. by destruct r. Qed.

Lemma document_values_no_object (root : Element) :
  findall "object" root = [] -> document_values root = Ok [].
Proof. unfold document_values. by intros ->. Qed.

Lemma concat_values_skip_empty (files : list Element) :
  @concat xml_value <$> mapM document_values files
  = @concat xml_value <$> mapM document_values
                 (filter (fun root => findall "object" root <> []) files).
Proof.
  induction files as [|root files IH]; [reflexivity|].
  rewrite filter_cons. destruct (decide (findall "object" root <> [])) as [Hsome|Hnone].
  - rewrite !mapM_cons. destruct (document_values root) as [vs|e]; [|reflexivity].
    simpl. destruct (mapM document_values files) as [vss|e],
      (mapM document_values (filter _ files)) as [vss'|e']; simpl in *;
      congruence.
  - apply dec_stable in Hnone. rewrite mapM_cons, (document_values_no_object _ Hnone).
    simpl. rewrite <- IH. by destruct (mapM document_values files).
Qed.

(** X10. A document without any [object] element is never inspected: the
    call returns (or raises) exactly what it does on the file list without
    such documents, whether or not these have a file name or a size. *)
Theorem documents_without_objects_are_ignored
    (files : list Element) (image_dir image_set : string) (encoder : LabelEncoder) :
  convert_annotations_to_df files image_dir image_set encoder
  = convert_annotations_to_df
      (filter (fun root => findall "object" root <> []) files)
      image_dir image_set encoder.
Proof.
  unfold convert_annotations_to_df, xml_rows.
  by rewrite !(bind_fmap (@concat xml_value)), concat_values_skip_empty.
Qed.

(** ** Flattening a directory in parts *)

Lemma mapM_app_Ok {A B : Type} (f : A -> result B) (l1 l2 : list A) (k : list B) :
  mapM f (l1 ++ l2) = Ok k <->
  exists k1 k2, mapM f l1 = Ok k1 /\ mapM f l2 = Ok k2 /\ k = k1 ++ k2.
Proof.
  rewrite mapM_Ok. split.
  - intros (k1 & k2 & H1 & H2 & ->)%Forall2_app_inv_l.
    exists k1, k2. by rewrite !mapM_Ok.
  - intros (k1 & k2 & H1 & H2 & ->). apply Forall2_app; by apply mapM_Ok.
Qed.

Lemma xml_rows_Ok (files : list Element) (image_dir : string) (rows : list Row) :
  xml_rows files image_dir = Ok rows <->
  exists vss, mapM document_values files = Ok vss /\
              mapM (join_row image_dir) (concat vss) = Ok rows.
Proof.
  unfold xml_rows. rewrite bind_Ok. reflexivity.
Qed.

Lemma xml_rows_app (files1 files2 : list Element) (image_dir : string)
    (rows : list Row) :
  xml_rows (files1 ++ files2) image_dir = Ok rows <->
  exists rows1 rows2,
    xml_rows files1 image_dir = Ok rows1 /\ xml_rows files2 image_dir = Ok rows2 /\
    rows = rows1 ++ rows2.
Proof.
  rewrite xml_rows_Ok. split.
  - intros (vss & Hvss & Hrows).
    apply mapM_app_Ok in Hvss as (vss1 & vss2 & H1 & H2 & ->).
    rewrite concat_app in Hrows.
    apply mapM_app_Ok in Hrows as (rows1 & rows2 & Hr1 & Hr2 & ->).
    exists rows1, rows2. rewrite !xml_rows_Ok. eauto 10.
  - intros (rows1 & rows2 & H1 & H2 & ->).
    apply xml_rows_Ok in H1 as (vss1 & Hv1 & Hr1).
    apply xml_rows_Ok in H2 as (vss2 & Hv2 & Hr2).
    exists (vss1 ++ vss2). split.
    + apply mapM_app_Ok. eauto.
    + rewrite concat_app. apply mapM_app_Ok. eauto.
Qed.

Lemma encode_app (classes ys1 ys2 : list class_name) (codes : list Z) :
  encode classes (ys1 ++ ys2) = Ok codes <->
  exists codes1 codes2,
    encode classes ys1 = Ok codes1 /\ encode classes ys2 = Ok codes2 /\
    codes = codes1 ++ codes2.
Proof. apply mapM_app_Ok. Qed.

(** What a call on a split other than train returns, from its rows. *)
Lemma convert_not_train (files : list Element) (image_dir image_set : string)
    (encoder encoder' : LabelEncoder) (dfr : DataFrame) :
  image_set <> "train" ->
  convert_annotations_to_df files image_dir image_set encoder = Ok (dfr, encoder') <->
  encoder' = encoder /\
  exists rows, xml_rows files image_dir = Ok rows /\
    if decide (image_set = "val" \/ image_set = "test") then
      exists classes codes,
        encoder = Some classes /\ encode classes (class <$> rows) = Ok codes /\
        dfr = MkDataFrame rows (Some ((fun c => c + 1) <$> codes))
    else dfr = MkDataFrame rows None.
Proof.
  intros Htrain. unfold convert_annotations_to_df. split.
  - intros Hc. apply bind_Ok in Hc as (rows & Hrows & Hc).
    rewrite decide_False in Hc by assumption. destruct (decide (_ \/ _)).
    + apply bind_Ok in Hc as (codes & Htr & Hc). injection Hc as <- <-.
      unfold transform in Htr. apply bind_Ok in Htr as (classes & Hcl & Hcodes).
      apply from_option_Ok in Hcl. split; [reflexivity|]. exists rows. eauto 10.
    + injection Hc as <- <-. eauto.
  - intros (-> & rows & Hrows & Hc). rewrite Hrows. simpl.
    rewrite decide_False by assumption. destruct (decide (_ \/ _)).
    + destruct Hc as (classes & codes & -> & Hcodes & ->).
      unfold transform. simpl. by rewrite Hcodes.
    + by rewrite Hc.
Qed.

(** X11. On every split but train, flattening a file list in two parts
    with the same encoder and putting the two tables one after the other is
    flattening the whole list: the whole call succeeds exactly when both
    parts do, and then its rows and labels are theirs in order. *)
Theorem flatten_is_additive_off_train
    (files1 files2 : list Element) (image_dir image_set : string)
    (encoder encoder' : LabelEncoder) (dfr : DataFrame) :
  image_set <> "train" ->
  convert_annotations_to_df (files1 ++ files2) image_dir image_set encoder
  = Ok (dfr, encoder') <->
  exists df1 df2,
    convert_annotations_to_df files1 image_dir image_set encoder = Ok (df1, encoder') /\
    convert_annotations_to_df files2 image_dir image_set encoder = Ok (df2, encoder') /\
    dfr = df_concat df1 df2.
Proof.
  intros Htrain. rewrite convert_not_train by assumption. split.
  - intros (-> & rows & Hrows & Hc).
    apply xml_rows_app in Hrows as (rows1 & rows2 & H1 & H2 & ->).
    destruct (decide (_ \/ _)) as [Hset|Hset].
    + destruct Hc as (classes & codes & -> & Hcodes & ->).
      rewrite fmap_app in Hcodes.
      apply encode_app in Hcodes as (codes1 & codes2 & Hc1 & Hc2 & ->).
      exists (MkDataFrame rows1 (Some ((fun c => c + 1) <$> codes1))),
             (MkDataFrame rows2 (Some ((fun c => c + 1) <$> codes2))).
      split; [|split].
      * apply convert_not_train; [assumption|]. split; [reflexivity|].
        exists rows1. split; [assumption|]. rewrite decide_True by assumption.
        eauto.
      * apply convert_not_train; [assumption|]. split; [reflexivity|].
        exists rows2. split; [assumption|]. rewrite decide_True by assumption.
        eauto.
      * unfold df_concat. simpl. by rewrite fmap_app.
    + subst dfr. exists (MkDataFrame rows1 None), (MkDataFrame rows2 None).
      split; [|split].
      * apply convert_not_train; [assumption|]. split; [reflexivity|].
        exists rows1. split; [assumption|]. by rewrite decide_False.
      * apply convert_not_train; [assumption|]. split; [reflexivity|].
        exists rows2. split; [assumption|]. by rewrite decide_False.
      * reflexivity.
  - intros (df1 & df2 & H1 & H2 & ->).
    apply convert_not_train in H1 as (-> & rows1 & Hr1 & Hc1); [|assumption].
    apply convert_not_train in H2 as (_ & rows2 & Hr2 & Hc2); [|assumption].
    split; [reflexivity|]. exists (rows1 ++ rows2). split.
    + apply xml_rows_app. eauto.
    + destruct (decide (_ \/ _)).
      * destruct Hc1 as (classes & codes1 & -> & Hcodes1 & ->).
        destruct Hc2 as (classes' & codes2 & [= <-] & Hcodes2 & ->).
        exists classes, (codes1 ++ codes2). split; [reflexivity|]. split.
        -- rewrite fmap_app. apply encode_app. eauto.
        -- unfold df_concat. simpl. by rewrite fmap_app.
      * by subst.
Qed.

Lemma flatten_is_additive_off_train_witness :
  convert_annotations_to_df ([doc_a; doc_b] ++ [doc_d]) "imgs" "val" encoder_a
  = Ok (df_concat df_a df_d, encoder_a).
Proof.
  apply (flatten_is_additive_off_train [doc_a; doc_b] [doc_d] "imgs" "val");
    [discriminate|].
  exists df_a, df_d. repeat split; vm_compute; reflexivity.
Defined.

(** ** The order of [classes_] *)

Lemma string_ltb_le (a b : string) :
  String.ltb a b = true <-> String.le a b /\ a <> b.
Proof.
  unfold String.le, String.ltb, String.leb. split.
  - destruct (a ?= b)%string eqn:Hab; try discriminate. intros _.
    split; [done|]. intros ->.
    assert (Hrefl : String.le b b) by reflexivity.
    unfold String.le, String.leb in Hrefl.
    rewrite String.compare_antisym in Hab.
    destruct (b ?= b)%string eqn:Hbb; simpl in *; try discriminate. done.
  - intros [Hle Hne]. destruct (a ?= b)%string eqn:Hab; try done.
    apply String.compare_eq_iff in Hab. contradiction.
Qed.

Lemma class_lt_irrefl (a : class_name) : ~ class_lt a a.
Proof.
  unfold class_lt. destruct a as [a|]; simpl; [|discriminate].
  rewrite string_ltb_le. by intros [_ ?].
Qed.

Lemma class_lt_trans (a b c : class_name) :
  class_lt a b -> class_lt b c -> class_lt a c.
Proof.
  unfold class_lt. destruct a as [a|], b as [b|], c as [c|]; simpl;
    try discriminate; try reflexivity.
  rewrite !string_ltb_le. intros [Hab Hne1] [Hbc Hne2]. split.
  - by etrans.
  - intros ->. apply Hne1. by apply (anti_symm String.le).
Qed.

Lemma class_lt_total (a b : class_name) :
  a <> b -> class_ltb a b = false -> class_lt b a.
Proof.
  unfold class_lt. destruct a as [a|], b as [b|]; simpl;
    try discriminate; try reflexivity; try done.
  intros Hne Hab. apply string_ltb_le. split.
  - destruct (total String.le a b) as [Hle|Hle]; [|assumption].
    exfalso. apply not_true_iff_false in Hab. apply Hab, string_ltb_le.
    split; [assumption | congruence].
  - congruence.
Qed.

Lemma insert_class_sorted (c : class_name) (cs : list class_name) :
  StronglySorted class_lt cs -> StronglySorted class_lt (insert_class c cs).
Proof.
  induction cs as [|d cs IH]; simpl; intros Hs.
  - repeat constructor.
  - apply StronglySorted_cons in Hs as [Hd Hs].
    destruct (decide (c = d)) as [->|Hcd].
    + by apply StronglySorted_cons.
    + destruct (class_ltb c d) eqn:Hlt.
      * apply StronglySorted_cons. split; [|by apply StronglySorted_cons].
        constructor; [exact Hlt|].
        eapply Forall_impl; [exact Hd|]. intros x Hx. by eapply class_lt_trans.
      * apply StronglySorted_cons. split; [|by apply IH].
        apply Forall_forall. intros x [->|Hx]%insert_class_elem.
        -- by apply class_lt_total.
        -- rewrite Forall_forall in Hd. by apply Hd.
Qed.

Lemma sorted_unique_sorted (ys : list class_name) :
  StronglySorted class_lt (sorted_unique ys).
Proof.
  unfold sorted_unique. induction ys as [|y ys IH]; simpl; [constructor|].
  by apply insert_class_sorted.
Qed.

Lemma sorted_NoDup (cs : list class_name) : StronglySorted class_lt cs -> NoDup cs.
Proof.
  induction cs as [|d cs IH]; [constructor|].
  intros [Hd Hs]%StronglySorted_cons. constructor; [|by apply IH].
  intros Hin. rewrite Forall_forall in Hd. by apply (class_lt_irrefl d), Hd.
Qed.

Lemma index_of_lookup (cs : list class_name) (c : class_name) (n : nat) :
  index_of cs c = Some n -> cs !! n = Some c.
Proof.
  revert n. induction cs as [|d cs IH]; intros n; simpl; [discriminate|].
  destruct (decide (c = d)) as [->|_].
  - by intros [= <-].
  - destruct (index_of cs c) as [m|]; [|discriminate]. intros [= <-]. by apply IH.
Qed.

Lemma lookup_index_of (cs : list class_name) (c : class_name) (n : nat) :
  NoDup cs -> cs !! n = Some c -> index_of cs c = Some n.
Proof.
  intros Hnd Hn.
  assert (Hin : c ∈ cs) by (by eapply list_elem_of_lookup_2).
  apply index_of_Some in Hin as [m Hm]. rewrite Hm. f_equal.
  apply index_of_lookup in Hm. by eapply NoDup_lookup.
Qed.

Lemma index_of_sorted (cs : list class_name) (a b : class_name) (i j : nat) :
  StronglySorted class_lt cs ->
  index_of cs a = Some i -> index_of cs b = Some j -> class_lt a b -> (i < j)%nat.
Proof.
  intros Hs Ha Hb Hab. apply index_of_lookup in Ha, Hb.
  destruct (decide (i < j)%nat) as [|Hge]; [assumption|]. exfalso.
  destruct (decide (i = j)) as [->|Hne].
  - rewrite Ha in Hb. injection Hb as ->. by apply (class_lt_irrefl b).
  - assert (Hji : (j < i)%nat) by lia.
    apply (class_lt_irrefl a), (class_lt_trans a b a); [assumption|].
    clear Hab Hge Hne. revert i j Ha Hb Hji.
    induction Hs as [|d cs Hs IH Hd]; intros i j Ha Hb Hji.
    + by rewrite lookup_nil in Ha.
    + destruct j as [|j], i as [|i]; try lia; simpl in *.
      * injection Hb as ->. rewrite Forall_forall in Hd.
        apply Hd. by eapply list_elem_of_lookup_2.
      * apply (IH i j); [assumption | assumption | lia].
Qed.

(** ** The labels of a training table *)

(** X12. A call on the training split never fails at the label step and
    ignores what the encoder held: if the documents yield rows it returns
    them with one label per row and leaves the encoder fitted on the sorted
    distinct class names of these rows; it raises only what reading the
    documents raises; and its outcome is the same for every previous state
    of the encoder. *)
Theorem train_call_refits_encoder
    (files : list Element) (image_dir : string) (encoder : LabelEncoder) :
  (forall rows, xml_rows files image_dir = Ok rows ->
     exists labels,
       convert_annotations_to_df files image_dir "train" encoder
       = Ok (MkDataFrame rows (Some labels), Some (sorted_unique (class <$> rows))) /\
       length labels = length rows) /\
  (forall e, xml_rows files image_dir = Raise e ->
     convert_annotations_to_df files image_dir "train" encoder = Raise e) /\
  (forall encoder2,
     convert_annotations_to_df files image_dir "train" encoder2
     = convert_annotations_to_df files image_dir "train" encoder).
Proof.
  unfold convert_annotations_to_df. split; [|split].
  - intros rows ->. simpl.
    destruct (fit_transform_total (class <$> rows)) as [codes Hfit].
    rewrite Hfit. simpl. eexists. split; [reflexivity|].
    unfold fit_transform in Hfit. apply bind_Ok in Hfit as (codes' & Hcodes & [= <-]).
    apply codes_positive in Hcodes as [Hlen _]. by rewrite Hlen, length_fmap.
  - by intros e ->.
  - intros encoder2. by destruct (xml_rows files image_dir).
Qed.

(** X13. In a table flattened on the training split the labels number the
    class names: the encoder holds each class name of the table once, every
    label lies between 1 and the number of these names, the name at position
    [label - 1] is the class of the row (so equal labels mean equal classes),
    and every number in that range is the label of some row. *)
Theorem train_labels_number_the_classes
    (files : list Element) (image_dir : string)
    (encoder encoder' : LabelEncoder) (dfr : DataFrame) :
  convert_annotations_to_df files image_dir "train" encoder = Ok (dfr, encoder') ->
  exists ls classes,
    df_labels dfr = Some ls /\ encoder' = Some classes /\ NoDup classes /\
    (forall c, c ∈ classes <-> exists r, r ∈ df_rows dfr /\ class r = c) /\
    (forall (i : nat) r l,
       df_rows dfr !! i = Some r -> ls !! i = Some l ->
       1 <= l <= Z.of_nat (length classes) /\
       classes !! Z.to_nat (l - 1) = Some (class r)) /\
    (forall n, 1 <= n <= Z.of_nat (length classes) -> n ∈ ls).
Proof.
  intros Hc.
  destruct (convert_labels _ _ _ _ _ _ Hc)
    as [(_ & codes & -> & Hcodes & Hl) | [([?|?] & _) | (? & _)]];
    try discriminate; try contradiction.
  set (classes := sorted_unique (class <$> df_rows dfr)) in *.
  assert (Hdecode : forall (i : nat) r l,
            df_rows dfr !! i = Some r -> ((fun c => c + 1) <$> codes) !! i = Some l ->
            exists n : nat, index_of classes (class r) = Some n /\ l = Z.of_nat n + 1).
  { intros i r l Hr Hli. apply (codes_lookup _ _ _ i (class r) l Hcodes); [|assumption].
    by rewrite list_lookup_fmap, Hr. }
  assert (Hnd : NoDup classes) by apply sorted_NoDup, sorted_unique_sorted.
  exists ((fun c => c + 1) <$> codes), classes.
  split; [assumption|]. split; [reflexivity|]. split; [assumption|].
  split; [|split].
  - intros c. unfold classes. rewrite sorted_unique_elem, list_elem_of_fmap.
    split; intros (r & ? & ?); eauto.
  - intros i r l Hr Hli. destruct (Hdecode i r l Hr Hli) as (n & Hn & ->).
    apply index_of_lookup in Hn. pose proof (lookup_lt_Some _ _ _ Hn).
    split; [lia|]. by replace (Z.to_nat (Z.of_nat n + 1 - 1)) with n by lia.
  - intros n Hn.
    destruct (lookup_lt_is_Some_2 classes (Z.to_nat (n - 1))) as [c Hcl]; [lia|].
    assert (Hin : c ∈ class <$> df_rows dfr).
    { apply sorted_unique_elem. by eapply list_elem_of_lookup_2. }
    apply list_elem_of_lookup in Hin as [i Hi].
    rewrite list_lookup_fmap in Hi.
    destruct (df_rows dfr !! i) as [r|] eqn:Hr; [|discriminate]. injection Hi as <-.
    apply encode_Ok in Hcodes as Hall.
    pose proof (Forall2_length _ _ _ Hall) as Hlen. rewrite length_fmap in Hlen.
    destruct (lookup_lt_is_Some_2 ((fun c => c + 1) <$> codes) i) as [l Hli].
    { rewrite length_fmap, <- Hlen. by eapply lookup_lt_Some. }
    destruct (Hdecode i r l Hr Hli) as (m & Hm & ->).
    rewrite (lookup_index_of _ _ _ Hnd Hcl) in Hm. injection Hm as <-.
    replace n with (Z.of_nat (Z.to_nat (n - 1)) + 1) at 1 by lia.
    by eapply list_elem_of_lookup_2.
Qed.

Lemma train_labels_number_the_classes_witness :
  exists ls classes,
    df_labels df_a = Some ls /\ encoder_a = Some classes /\ NoDup classes /\
    (forall c, c ∈ classes <-> exists r, r ∈ df_rows df_a /\ class r = c) /\
    (forall (i : nat) r l,
       df_rows df_a !! i = Some r -> ls !! i = Some l ->
       1 <= l <= Z.of_nat (length classes) /\
       classes !! Z.to_nat (l - 1) = Some (class r)) /\
    (forall n, 1 <= n <= Z.of_nat (length classes) -> n ∈ ls).
Proof.
  apply (train_labels_number_the_classes [doc_a; doc_b] "imgs" None).
  vm_compute. reflexivity.
Defined.

(** X14. The labels of a training table follow the order of the class
    names, strings compared character by character and a missing name last:
    the encoder's list is strictly increasing, and a row whose class comes
    before that of another row has the smaller label, whichever row comes
    first in the table. *)
Theorem train_labels_follow_class_order
    (files : list Element) (image_dir : string)
    (encoder encoder' : LabelEncoder) (dfr : DataFrame) :
  convert_annotations_to_df files image_dir "train" encoder = Ok (dfr, encoder') ->
  exists ls classes,
    df_labels dfr = Some ls /\ encoder' = Some classes /\
    StronglySorted class_lt classes /\
    (forall (i j : nat) ri rj li lj,
       df_rows dfr !! i = Some ri -> ls !! i = Some li ->
       df_rows dfr !! j = Some rj -> ls !! j = Some lj ->
       class_lt (class ri) (class rj) -> li < lj).
Proof.
  intros Hc.
  destruct (convert_labels _ _ _ _ _ _ Hc)
    as [(_ & codes & -> & Hcodes & Hl) | [([?|?] & _) | (? & _)]];
    try discriminate; try contradiction.
  exists ((fun c => c + 1) <$> codes), (sorted_unique (class <$> df_rows dfr)).
  split; [assumption|]. split; [reflexivity|].
  split; [apply sorted_unique_sorted|].
  intros i j ri rj li lj Hri Hli Hrj Hlj Hlt.
  destruct (codes_lookup _ _ _ i (class ri) li Hcodes) as (n & Hn & ->);
    [by rewrite list_lookup_fmap, Hri | assumption |].
  destruct (codes_lookup _ _ _ j (class rj) lj Hcodes) as (m & Hm & ->);
    [by rewrite list_lookup_fmap, Hrj | assumption |].
  pose proof (index_of_sorted _ _ _ _ _ (sorted_unique_sorted _) Hn Hm Hlt). lia.
Qed.

Lemma train_labels_follow_class_order_witness :
  exists dfr,
    convert_annotations_to_df [doc_e] "" "train" None
    = Ok (dfr, Some [Some "cat"; Some "dog"; None]) /\
    df_labels dfr = Some [2; 3; 1] /\
    exists ls classes,
      df_labels dfr = Some ls /\
      Some [Some "cat"; Some "dog"; None] = Some classes /\
      StronglySorted class_lt classes /\
      (forall (i j : nat) ri rj li lj,
         df_rows dfr !! i = Some ri -> ls !! i = Some li ->
         df_rows dfr !! j = Some rj -> ls !! j = Some lj ->
         class_lt (class ri) (class rj) -> li < lj).
Proof.
  eexists. split; [vm_compute; reflexivity|]. split; [reflexivity|].
  apply (train_labels_follow_class_order [doc_e] "" None).
  vm_compute. reflexivity.
Defined.

(** ** Why a flattening call fails *)

Lemma encode_Raise (classes ys : list class_name) (e : exn) :
  encode classes ys = Raise e ->
  e = ValueError /\ exists y, y ∈ ys /\ y ∉ classes.
Proof.
  unfold encode. induction ys as [|y ys IH]; [discriminate|].
  rewrite mapM_cons. destruct (index_of classes y) as [n|] eqn:Hy; simpl.
  - destruct (mapM _ ys) as [codes|e'] eqn:Hrest; simpl; [discriminate|].
    intros [= <-]. destruct (IH eq_refl) as (-> & x & Hx & Hnew).
    split; [reflexivity|]. exists x. split; [by right | assumption].
  - intros [= <-]. split; [reflexivity|]. exists y. split; [by left|].
    intros Hin. apply index_of_Some in Hin as [n Hn]. congruence.
Qed.

(** X15. A flattening call fails for one of three reasons only: reading
    the documents raised, and the call raises the same; or the split is val
    or test and the encoder was never fitted ([NotFittedError], even when
    there is no row); or the split is val or test and some row has a class
    name the fitted encoder does not hold ([ValueError]). *)
Theorem flatten_failures
    (files : list Element) (image_dir image_set : string)
    (encoder : LabelEncoder) (e : exn) :
  convert_annotations_to_df files image_dir image_set encoder = Raise e ->
  xml_rows files image_dir = Raise e \/
  (exists rows,
     xml_rows files image_dir = Ok rows /\
     (image_set = "val" \/ image_set = "test") /\
     ((encoder = None /\ e = NotFittedError) \/
      (exists classes r,
         encoder = Some classes /\ e = ValueError /\
         r ∈ rows /\ class r ∉ classes))).
Proof.
  unfold convert_annotations_to_df. intros He.
  destruct (xml_rows files image_dir) as [rows|e0] eqn:Hrows; simpl in He;
    [|left; by injection He as <-].
  right. exists rows. split; [reflexivity|].
  destruct (decide (image_set = "train")) as [->|Htrain].
  - destruct (fit_transform_total (class <$> rows)) as [codes Hfit].
    rewrite Hfit in He. discriminate.
  - destruct (decide (image_set = "val" \/ image_set = "test")) as [Hset|Hset];
      [|discriminate].
    split; [assumption|]. unfold transform in He.
    destruct encoder as [classes|]; simpl in He.
    + right. destruct (encode classes (class <$> rows)) as [codes|e1] eqn:Henc;
        simpl in He; [discriminate|]. injection He as <-.
      apply encode_Raise in Henc as (-> & c & Hc & Hnew).
      apply list_elem_of_fmap in Hc as (r & -> & Hr).
      exists classes, r. by repeat split.
    + left. by injection He as <-.
Qed.

Lemma flatten_failures_witness :
  convert_annotations_to_df [doc_b] "imgs" "val" None = Raise NotFittedError /\
  exists rows,
    xml_rows [doc_b] "imgs" = Ok rows /\ rows = [].
Proof.
  assert (He : convert_annotations_to_df [doc_b] "imgs" "val" None
               = Raise NotFittedError) by reflexivity.
  split; [exact He|].
  destruct (flatten_failures _ _ _ _ _ He) as [Hx | (rows & Hrows & _)].
  - vm_compute in Hx. discriminate.
  - exists rows. split; [exact Hrows|]. vm_compute in Hrows. by injection Hrows as <-.
Defined.

(** ** Which documents can be flattened *)

Lemma int_field_Ok (tag : string) (o : option Element) (z : Z) :
  int_field tag o = Ok z <->
  exists e c, o = Some e /\ find tag e = Some c /\ py_int (el_text c) = Ok z.
Proof.
  unfold int_field, find_of, text_of. split.
  - intros Hz. apply bind_Ok in Hz as (c & Hc & Hz).
    apply bind_Ok in Hc as (e & He & [= <-]). apply from_option_Ok in He.
    apply bind_Ok in Hz as (t & Ht & Hz).
    apply bind_Ok in Ht as (c & Hc & [= <-]). apply from_option_Ok in Hc.
    eauto 10.
  - intros (e & c & -> & Hc & Hz). simpl. rewrite Hc. simpl. exact Hz.
Qed.

Lemma text_of_Ok (o : option Element) (t : option string) :
  text_of o = Ok t <-> exists c, o = Some c /\ el_text c = t.
Proof.
  unfold text_of. split.
  - intros Ht. apply bind_Ok in Ht as (c & Hc & [= <-]).
    apply from_option_Ok in Hc. eauto.
  - by intros (c & -> & <-).
Qed.

Lemma member_value_object_ok (root member : Element) (v : xml_value) :
  member_value root member = Ok v -> object_ok member.
Proof.
  intros (_ & _ & _ & Hname & Hx0 & Hy0 & Hx1 & Hy1)%member_value_Ok.
  apply text_of_Ok in Hname as (c & Hc & _).
  apply int_field_Ok in Hx0 as (bbx & c0 & Hb & H0).
  apply int_field_Ok in Hy0 as (bbx1 & c1 & Hb1 & H1).
  apply int_field_Ok in Hx1 as (bbx2 & c2 & Hb2 & H2).
  apply int_field_Ok in Hy1 as (bbx3 & c3 & Hb3 & H3).
  rewrite Hb in Hb1, Hb2, Hb3. injection Hb1 as <-. injection Hb2 as <-.
  injection Hb3 as <-.
  split; [|by rewrite Hc]. exists bbx. unfold has_int.
  destruct H0, H1, H2, H3. eauto 20.
Qed.

Lemma member_value_total (root member : Element) (c : Element) (f : string)
    (size c0 c1 : Element) (rest : list Element) (z0 z1 : Z) :
  object_ok member ->
  find "filename" root = Some c -> el_text c = Some f ->
  find "size" root = Some size -> el_children size = c0 :: c1 :: rest ->
  py_int (el_text c0) = Ok z0 -> py_int (el_text c1) = Ok z1 ->
  exists v, member_value root member = Ok v /\ v_filename v = Some f.
Proof.
  intros [(bbx & Hb & (cx0 & x0 & Hcx0 & Hx0) & (cy0 & y0 & Hcy0 & Hy0)
               & (cx1 & x1 & Hcx1 & Hx1) & (cy1 & y1 & Hcy1 & Hy1)) [n Hn]]
         Hc Hf Hsize Hch Hz0 Hz1.
  unfold member_value.
  rewrite Hb, Hn, Hc.
  rewrite (proj2 (int_field_Ok "xmin" (Some bbx) x0)) by eauto.
  rewrite (proj2 (int_field_Ok "ymin" (Some bbx) y0)) by eauto.
  rewrite (proj2 (int_field_Ok "xmax" (Some bbx) x1)) by eauto.
  rewrite (proj2 (int_field_Ok "ymax" (Some bbx) y1)) by eauto.
  rewrite (proj2 (size_child_Ok root 0 z0)) by (exists size, c0; by rewrite Hch).
  rewrite (proj2 (size_child_Ok root 1 z1)) by (exists size, c1; by rewrite Hch).
  simpl. eexists. split; [reflexivity|]. simpl. exact Hf.
Qed.

Lemma document_ok_iff (image_dir : string) (root : Element) :
  document_ok root <->
  exists vs part, document_values root = Ok vs /\
                  mapM (join_row image_dir) vs = Ok part.
Proof.
  unfold document_values. split.
  - intros [Hnone | (Hobjs & (c & f & Hc & Hf) & (size & c0 & c1 & rest & z0 & z1
                                                   & Hsize & Hch & Hz0 & Hz1))].
    { rewrite Hnone. by exists [], []. }
    induction Hobjs as [|member members Hm _ (vs & part & Hvs & Hpart)].
    + by exists [], [].
    + destruct (member_value_total root member c f size c0 c1 rest z0 z1)
        as (v & Hv & Hvf); try assumption.
      destruct (join_row image_dir v) as [r|e] eqn:Hr.
      * exists (v :: vs), (r :: part). rewrite !mapM_cons, Hv, Hr. simpl.
        by rewrite Hvs, Hpart.
      * unfold join_row in Hr. rewrite Hvf in Hr. discriminate.
  - intros (vs & part & Hvs & Hpart).
    unfold document_ok.
    destruct (findall "object" root) as [|member members] eqn:Hobjs; [by left|].
    right. apply mapM_Ok in Hvs, Hpart.
    split; [|split].
    + eapply Forall2_Forall_l; [exact Hvs|]. apply Forall_forall.
      intros v _ m Hv. by eapply member_value_object_ok.
    + inversion Hvs as [|? v ? vs' Hv Hvs']; subst.
      inversion Hpart as [|? r ? part' Hr _]; subst.
      apply member_value_Ok in Hv as (Hf & _).
      apply join_row_Ok in Hr as ((f & Hvf & _) & _).
      rewrite Hvf in Hf. apply text_of_Ok in Hf as (c & Hc & Hcf). eauto.
    + inversion Hvs as [|? v ? vs' Hv Hvs']; subst.
      apply member_value_Ok in Hv as (_ & Hw & Hh & _).
      apply size_child_Ok in Hw as (size & c0 & Hsize & Hc0 & Hz0).
      apply size_child_Ok in Hh as (size' & c1 & Hsize' & Hc1 & Hz1).
      rewrite Hsize in Hsize'. injection Hsize' as <-.
      destruct (el_children size) as [|d0 [|d1 rest]] eqn:Hch; try discriminate.
      simpl in Hc0, Hc1. injection Hc0 as ->. injection Hc1 as ->.
      exists size, c0, c1, rest, (v_width v), (v_height v). by repeat split.
Qed.

(** X16. Reading the documents succeeds exactly when every document that
    has an [object] element is well formed: each object has a [name] element
    and a [bndbox] whose [xmin], [ymin], [xmax] and [ymax] hold integers, and
    the document has a [filename] with text and a [size] whose first two
    children hold integers. Nothing else is asked of a document, and nothing
    at all of one without objects. *)
Theorem flattening_reads_iff_documents_ok
    (files : list Element) (image_dir : string) :
  (exists rows, xml_rows files image_dir = Ok rows) <-> Forall document_ok files.
Proof.
  split.
  - intros [rows Hrows]. apply xml_rows_parts in Hrows as (parts & _ & Hparts).
    clear rows. induction Hparts as [|root part files parts (vs & Hvs & Hpart) _ IH];
      constructor; [|assumption].
    apply (document_ok_iff image_dir). eauto.
  - intros Hok.
    assert (Hvss : exists vss,
               mapM document_values files = Ok vss /\
               Forall (fun vs => exists part, mapM (join_row image_dir) vs = Ok part) vss).
    { induction Hok as [|root files Hroot _ (vss & Hvss & Hjoin)].
      - exists []. split; [reflexivity | constructor].
      - apply (document_ok_iff image_dir) in Hroot as (vs & part & Hvs & Hpart).
        exists (vs :: vss). rewrite mapM_cons, Hvs. simpl. rewrite Hvss. simpl.
        split; [reflexivity|]. constructor; eauto. }
    destruct Hvss as (vss & Hvss & Hjoin).
    unfold xml_rows. rewrite Hvss. simpl. apply mapM_total.
    apply Forall_concat. eapply Forall_impl; [exact Hjoin|].
    intros vs [part Hpart]. apply mapM_Ok in Hpart.
    clear -Hpart. induction Hpart; constructor; eauto.
Qed.

(** ** The dataset of [get_pascal] *)

Lemma elem_of_concat {A : Type} (x : A) (ls : list (list A)) :
  x ∈ concat ls <-> exists l, x ∈ l /\ l ∈ ls.
Proof.
  induction ls as [|l ls IH]; simpl.
  - split; [by intros ?%elem_of_nil | by intros (? & _ & ?%elem_of_nil)].
  - rewrite elem_of_app, IH. split.
    + intros [Hx | (k & Hx & Hk)]; [exists l | exists k]; split; auto;
        [by left | by right].
    + intros (k & Hx & [->|Hk]%elem_of_cons); eauto.
Qed.

Lemma omap_length_le {A B : Type} (f : A -> option B) (l : list A) :
  (length (omap f l) <= length l)%nat.
Proof.
  induction l as [|x l IH]; [reflexivity|].
  change (omap f (x :: l)) with (match f x with
                                 | Some y => y :: omap f l
                                 | None => omap f l
                                 end).
  destruct (f x); cbn [length]; lia.
Qed.

Lemma xml_rows_filenames (files : list Element) (image_dir : string)
    (rows : list Row) (id : string) :
  xml_rows files image_dir = Ok rows ->
  id ∈ filename <$> rows <->
  exists root, root ∈ files /\ findall "object" root <> [] /\
               document_path image_dir root = Some id.
Proof.
  intros Hrows. apply xml_rows_parts in Hrows as (parts & -> & Hparts).
  assert (Hpart : Forall2 (fun root part =>
            length part = length (findall "object" root) /\
            Forall (fun r => document_path image_dir root = Some (filename r)) part)
            files parts).
  { eapply Forall2_impl; [exact Hparts|]. intros root part (vs & Hvs & Hpart).
    destruct (document_part _ _ _ _ Hvs Hpart) as [Hlen Hall].
    split; [assumption|]. eapply Forall_impl; [exact Hall|].
    intros r ((f & Hf & ->) & _). simpl.
    apply text_of_Ok in Hf as (c & Hc & Hcf). unfold document_path.
    rewrite Hc. simpl. by rewrite Hcf. }
  clear Hparts. rewrite list_elem_of_fmap. split.
  - intros (r & -> & Hr). apply elem_of_concat in Hr as (part & Hr & Hin).
    apply list_elem_of_lookup in Hin as [i Hi].
    destruct (Forall2_lookup_r _ _ _ _ _ Hpart Hi) as (root & Hroot & Hlen & Hall).
    exists root. split; [by eapply list_elem_of_lookup_2|]. split.
    + intros Hnone. rewrite Hnone in Hlen. destruct part; [|discriminate].
      by apply elem_of_nil in Hr.
    + rewrite Forall_forall in Hall. by apply Hall.
  - intros (root & Hroot & Hobjs & Hpath).
    apply list_elem_of_lookup in Hroot as [i Hi].
    destruct (Forall2_lookup_l _ _ _ _ _ Hpart Hi) as (part & Hp & Hlen & Hall).
    destruct part as [|r part].
    + destruct (findall "object" root); [contradiction | discriminate].
    + exists r. apply Forall_cons in Hall as [Hr _]. split; [congruence|].
      apply elem_of_concat. exists (r :: part).
      split; [by left | by eapply list_elem_of_lookup_2].
Qed.

(** X17. When [get_pascal] returns, the file it wrote is named
    [pascal_<split>.csv] and holds the table of the flattening call, which is
    the table of the dataset; the dataset uses the transform passed in; its
    image ids are exactly the image paths of the documents that have an
    [object] element, so a picture without objects is never served; and its
    length is at most the number of such documents. *)
Theorem get_pascal_serves_documents_with_objects `{Cv2}
    (files : list Element) (image_dir image_set : string)
    (transforms : Transform) (encoder encoder' : LabelEncoder)
    (ds : PascalDataset) (n : string) (written : DataFrame) :
  get_pascal files image_dir image_set transforms encoder
  = Ok (ds, encoder', (n, written)) ->
  n = "pascal_" +:+ image_set +:+ ".csv" /\
  convert_annotations_to_df files image_dir image_set encoder = Ok (written, encoder') /\
  df ds = written /\ tfms ds = transforms /\
  (forall id, id ∈ image_ids ds <->
     exists root, root ∈ files /\ findall "object" root <> [] /\
                  document_path image_dir root = Some id) /\
  (len ds <= length (filter (fun root => findall "object" root <> []) files))%nat.
Proof.
  unfold get_pascal. intros Hget.
  apply bind_Ok in Hget as ([dfr enc] & Hc & Hget). injection Hget as <- <- <- <-.
  split; [reflexivity|]. split; [assumption|]. split; [reflexivity|].
  split; [reflexivity|].
  apply convert_rows in Hc.
  assert (Hids : forall id, id ∈ image_ids (init dfr transforms) <->
            exists root, root ∈ files /\ findall "object" root <> [] /\
                         document_path image_dir root = Some id).
  { intros id. rewrite <- (xml_rows_filenames _ _ _ id Hc).
    unfold init, unique. simpl. rewrite unique_from_elem. set_solver. }
  split; [exact Hids|].
  unfold len. etrans.
  - apply submseteq_length.
    apply (NoDup_submseteq _
             (omap (document_path image_dir)
                   (filter (fun root => findall "object" root <> []) files))).
    + apply unique_from_NoDup.
    + intros id (root & Hroot & Hobjs & Hpath)%Hids.
      apply list_elem_of_omap. exists root. split; [|assumption].
      by apply list_elem_of_filter.
  - apply omap_length_le.
Qed.


Lemma get_pascal_serves_documents_with_objects_witness :
  exists ds,
    @get_pascal unit_cv [doc_a; doc_b] "imgs" "train" keep_all None
    = Ok (ds, encoder_a, ("pascal_train.csv", df_a)) /\
    image_ids ds = ["imgs/a.jpg"] /\ len ds = 1%nat.
Proof.
  exists (@init unit_cv df_a keep_all).
  assert (Hc : convert_annotations_to_df [doc_a; doc_b] "imgs" "train" None
               = Ok (df_a, encoder_a)) by (vm_compute; reflexivity).
  assert (Hget : @get_pascal unit_cv [doc_a; doc_b] "imgs" "train" keep_all None
                 = Ok (@init unit_cv df_a keep_all, encoder_a,
                       ("pascal_train.csv", df_a))).
  { unfold get_pascal. rewrite Hc. reflexivity. }
  split; [exact Hget|].
  destruct (@get_pascal_serves_documents_with_objects unit_cv _ _ _ _ _ _ _ _ _ Hget)
    as (_ & _ & _ & _ & _ & Hlen).
  assert (Hids : image_ids (@init unit_cv df_a keep_all) = ["imgs/a.jpg"])
    by (unfold init; cbn [image_ids]; vm_compute; reflexivity).
  split; [exact Hids|]. unfold len. by rewrite Hids.
Defined.

(** ** The objects behind the rows *)

(** X18. When flattening returns a table, the rows of each document stand
    in the order of its [object] elements, one row per object: the row's
    class is the text of the object's [name] (none when the element is
    empty) and its [xmin], [ymin], [xmax], [ymax] are the integers of the
    fields of that name in the object's [bndbox]. *)
Theorem rows_follow_objects_in_document_order
    (files : list Element) (image_dir image_set : string)
    (encoder encoder' : LabelEncoder) (dfr : DataFrame) :
  convert_annotations_to_df files image_dir image_set encoder = Ok (dfr, encoder') ->
  exists parts,
    df_rows dfr = concat parts /\
    Forall2 (fun root part => Forall2 carries_object (findall "object" root) part)
            files parts.
Proof.
  intros Hc. apply convert_rows in Hc.
  apply xml_rows_parts in Hc as (parts & -> & Hparts).
  exists parts. split; [reflexivity|].
  eapply Forall2_impl; [exact Hparts|].
  intros root part (vs & Hvs & Hpart). simpl.
  unfold document_values in Hvs. apply mapM_Ok in Hvs, Hpart.
  pose proof (Forall2_compose _ _ _ _ _ Hvs Hpart) as Hall.
  eapply Forall2_impl; [exact Hall|].
  intros member r (v & Hv & Hr). simpl in *.
  apply member_value_Ok in Hv as (_ & _ & _ & Hname & Hx0 & Hy0 & Hx1 & Hy1).
  apply join_row_Ok in Hr as (_ & _ & _ & Hclass & Hbox).
  unfold row_box in Hbox. unfold carries_object.
  injection Hbox as -> -> -> ->. rewrite Hclass. by repeat split.
Qed.

Lemma rows_follow_objects_in_document_order_witness :
  exists parts,
    [MkRow "e.jpg" 20 10 (Some "dog") 1 1 2 2;
     MkRow "e.jpg" 20 10 None 0 0 1 1;
     MkRow "e.jpg" 20 10 (Some "cat") 3 3 4 4;
     MkRow "c.jpg" 300 500 (Some "bird") 1 2 3 4] = concat parts /\
    Forall2 (fun root part => Forall2 carries_object (findall "object" root) part)
            [doc_e; doc_b; doc_c] parts.
Proof.
  apply (rows_follow_objects_in_document_order [doc_e; doc_b; doc_c] "" "any" None None
           (MkDataFrame
              [MkRow "e.jpg" 20 10 (Some "dog") 1 1 2 2;
               MkRow "e.jpg" 20 10 None 0 0 1 1;
               MkRow "e.jpg" 20 10 (Some "cat") 3 3 4 4;
               MkRow "c.jpg" 300 500 (Some "bird") 1 2 3 4] None)).
  vm_compute. reflexivity.
Defined.

(** ** Training labels and the order of the directory listing *)

Lemma sorted_same_elements (l1 l2 : list class_name) :
  StronglySorted class_lt l1 -> StronglySorted class_lt l2 ->
  (forall x, x ∈ l1 <-> x ∈ l2) -> l1 = l2.
Proof.
  intros Hs1. revert l2. induction Hs1 as [|a l1 Hs1 IH Ha]; intros l2 Hs2 Hsame.
  - destruct l2 as [|b l2]; [reflexivity|].
    exfalso. apply (elem_of_nil b), Hsame. by left.
  - destruct Hs2 as [|b l2 Hs2 Hb].
    { exfalso. apply (elem_of_nil a), Hsame. by left. }
    rewrite Forall_forall in Ha, Hb.
    assert (Hab : a = b).
    { destruct (decide (a = b)) as [|Hne]; [assumption|]. exfalso.
      assert (Ha2 : a ∈ b :: l2) by (apply Hsame; by left).
      assert (Hb1 : b ∈ a :: l1) by (apply Hsame; by left).
      apply elem_of_cons in Ha2 as [?|Ha2]; [contradiction|].
      apply elem_of_cons in Hb1 as [?|Hb1]; [by subst|].
      apply (class_lt_irrefl a), (class_lt_trans a b a); auto. }
    subst b. f_equal. apply IH; [assumption|]. intros x. split; intros Hx.
    + assert (Hx2 : x ∈ a :: l2) by (apply Hsame; by right).
      apply elem_of_cons in Hx2 as [->|]; [|assumption].
      exfalso. by apply (class_lt_irrefl a), Ha.
    + assert (Hx1 : x ∈ a :: l1) by (apply Hsame; by right).
      apply elem_of_cons in Hx1 as [->|]; [|assumption].
      exfalso. by apply (class_lt_irrefl a), Hb.
Qed.

Lemma xml_rows_classes (files : list Element) (image_dir : string)
    (rows : list Row) (c : class_name) :
  xml_rows files image_dir = Ok rows ->
  c ∈ class <$> rows <->
  exists root member, root ∈ files /\ member ∈ findall "object" root /\
                      text_of (find "name" member) = Ok c.
Proof.
  intros Hrows. apply xml_rows_parts in Hrows as (parts & -> & Hparts).
  assert (Hpart : Forall2 (fun root part =>
            Forall2 (fun member r => text_of (find "name" member) = Ok (class r))
                    (findall "object" root) part) files parts).
  { eapply Forall2_impl; [exact Hparts|]. intros root part (vs & Hvs & Hpart).
    unfold document_values in Hvs. apply mapM_Ok in Hvs, Hpart.
    eapply Forall2_impl; [exact (Forall2_compose _ _ _ _ _ Hvs Hpart)|].
    intros member r (v & Hv & Hr). simpl in *.
    apply member_value_Ok in Hv as (_ & _ & _ & Hname & _).
    apply join_row_Ok in Hr as (_ & _ & _ & -> & _). exact Hname. }
  clear Hparts. rewrite list_elem_of_fmap. split.
  - intros (r & -> & Hr). apply elem_of_concat in Hr as (part & Hr & Hin).
    apply list_elem_of_lookup in Hin as [i Hi].
    destruct (Forall2_lookup_r _ _ _ _ _ Hpart Hi) as (root & Hroot & Hall).
    apply list_elem_of_lookup in Hr as [j Hj].
    destruct (Forall2_lookup_r _ _ _ _ _ Hall Hj) as (member & Hm & Hname).
    exists root, member. repeat split; try assumption;
      by eapply list_elem_of_lookup_2.
  - intros (root & member & Hroot & Hm & Hname).
    apply list_elem_of_lookup in Hroot as [i Hi].
    destruct (Forall2_lookup_l _ _ _ _ _ Hpart Hi) as (part & Hp & Hall).
    apply list_elem_of_lookup in Hm as [j Hj].
    destruct (Forall2_lookup_l _ _ _ _ _ Hall Hj) as (r & Hr & Hname').
    exists r. split; [congruence|]. apply elem_of_concat. exists part.
    split; by eapply list_elem_of_lookup_2.
Qed.

(** X19. The labels of the training split do not depend on the order in
    which the directory is listed: two training calls over the same
    documents, in any order and whatever the encoder held before, leave the
    encoder in the same state and give rows of equal class name the same
    label. *)
Theorem train_labels_ignore_file_order
    (files1 files2 : list Element) (image_dir1 image_dir2 : string)
    (encoder1 encoder2 encoder1' encoder2' : LabelEncoder) (df1 df2 : DataFrame) :
  (forall root, root ∈ files1 <-> root ∈ files2) ->
  convert_annotations_to_df files1 image_dir1 "train" encoder1 = Ok (df1, encoder1') ->
  convert_annotations_to_df files2 image_dir2 "train" encoder2 = Ok (df2, encoder2') ->
  encoder1' = encoder2' /\ same_class_same_label df1 df2.
Proof.
  intros Hfiles Hc1 Hc2.
  pose proof (convert_rows _ _ _ _ _ _ Hc1) as Hrows1.
  pose proof (convert_rows _ _ _ _ _ _ Hc2) as Hrows2.
  destruct (convert_labels _ _ _ _ _ _ Hc1)
    as [(_ & codes1 & -> & Hcodes1 & Hl1) | [([?|?] & _) | (? & _)]];
    try discriminate; try contradiction.
  destruct (convert_labels _ _ _ _ _ _ Hc2)
    as [(_ & codes2 & -> & Hcodes2 & Hl2) | [([?|?] & _) | (? & _)]];
    try discriminate; try contradiction.
  assert (Heq : sorted_unique (class <$> df_rows df1)
                = sorted_unique (class <$> df_rows df2)).
  { apply sorted_same_elements; try apply sorted_unique_sorted.
    intros c. rewrite !sorted_unique_elem.
    rewrite (xml_rows_classes _ _ _ c Hrows1), (xml_rows_classes _ _ _ c Hrows2).
    split; intros (root & member & Hroot & Hm); exists root, member;
      (split; [by apply Hfiles | assumption]). }
  split; [by rewrite Heq|].
  intros ls1 ls2 i j r1 r2 l1 l2 Hls1 Hls2 Hr1 Hli Hr2 Hlj Hclass.
  rewrite Hl1 in Hls1. injection Hls1 as <-.
  rewrite Hl2 in Hls2. injection Hls2 as <-.
  destruct (codes_lookup _ _ _ i (class r1) l1 Hcodes1) as (n1 & Hn1 & ->);
    [by rewrite list_lookup_fmap, Hr1 | assumption |].
  destruct (codes_lookup _ _ _ j (class r2) l2 Hcodes2) as (n2 & Hn2 & ->);
    [by rewrite list_lookup_fmap, Hr2 | assumption |].
  rewrite Heq, Hclass in Hn1. congruence.
Qed.

Lemma train_labels_ignore_file_order_witness :
  exists df1 df2 encoder',
    convert_annotations_to_df [doc_a; doc_e] "" "train" None = Ok (df1, encoder') /\
    convert_annotations_to_df [doc_e; doc_a] "" "train" encoder_a = Ok (df2, encoder') /\
    df_labels df1 = Some [1; 2; 2; 3; 1] /\
    df_labels df2 = Some [2; 3; 1; 1; 2] /\
    same_class_same_label df1 df2.
Proof.
  destruct (convert_annotations_to_df [doc_a; doc_e] "" "train" None)
    as [[df1 e1]|e] eqn:H1; [|vm_compute in H1; discriminate].
  destruct (convert_annotations_to_df [doc_e; doc_a] "" "train" encoder_a)
    as [[df2 e2]|e] eqn:H2; [|vm_compute in H2; discriminate].
  destruct (train_labels_ignore_file_order [doc_a; doc_e] [doc_e; doc_a]
              "" "" None encoder_a e1 e2 df1 df2) as [<- Hsame]; try assumption.
  - intros root. rewrite !elem_of_cons. tauto.
  - exists df1, df2, e1. split; [reflexivity|]. split; [reflexivity|].
    vm_compute in H1. injection H1 as <- _.
    vm_compute in H2. injection H2 as <- _.
    split; [reflexivity|]. split; [reflexivity|]. exact Hsame.
Defined.

(** ** From a labelled table to the transform *)



